(** * HC-SR04 echo timing on TIM2 input capture: model of [main.c]

    [measure_distance_cm] talks to the timer through volatile 32-bit
    registers.  The model keeps the registers behind an interface ([Board]):
    every volatile read is a [load], every volatile write a [store], and each
    [nop] of the busy-wait delay is a [nop].  The function itself is written
    in a small monad that threads the board state, collects the trace of
    register accesses and console lines, and carries the early [return]s of
    the C code. *)

From Stdlib Require Import ZArith List Lia Bool String.
Import ListNotations.
Local Open Scope Z_scope.

(** ** 32-bit unsigned arithmetic *)

(** [uint32_t] values are integers in [0, 2^32); every operation that can
    leave the range is followed by [wrap32]. *)
Definition wrap32 (z : Z) : Z := z mod 2 ^ 32.

(** [~x] on a 32-bit operand. *)
Definition not32 (z : Z) : Z := wrap32 (Z.lnot z).

(** ** Registers and the board *)

(** The memory-mapped registers the measurement touches. *)
Inductive reg : Type :=
| TIM2_SR
| TIM2_CNT
| TIM2_CCER
| TIM2_CCR2
| GPIOA_ODR.

Definition reg_eqb (a b : reg) : bool :=
  match a, b with
  | TIM2_SR, TIM2_SR | TIM2_CNT, TIM2_CNT | TIM2_CCER, TIM2_CCER
  | TIM2_CCR2, TIM2_CCR2 | GPIOA_ODR, GPIOA_ODR => true
  | _, _ => false
  end.

(** What the function does to the outside world, in program order. *)
Inductive event : Type :=
| EvRead (r : reg) (v : Z)
| EvWrite (r : reg) (v : Z)
| EvPrint (fmt : string) (arg : Z).

(** The hardware behind the registers.  Nothing is assumed about it: a read
    may change the state (time passes, flags move), a write may or may not
    stick. *)
Class Board : Type := {
  hw : Type;
  load : reg -> hw -> Z * hw;
  store : reg -> Z -> hw -> hw;
  nop : hw -> hw
}.

(** ** Conversion arithmetic (main.c, lines 149-166) *)

(** Lines 150-157: the pulse width from the two captured values. *)
Definition pulse_width (start_time end_time : Z) : Z :=
  if end_time >=? start_time
  then wrap32 (end_time - start_time)
  else wrap32 (wrap32 (wrap32 (0xFFFF - start_time) + end_time) + 1).

(** Line 166: [(pulse_width * 343) / 4000] in [uint32_t]. *)
Definition distance_cm (pw : Z) : Z := wrap32 (pw * 343) / 4000.

(** Line 219 of [main]: the caller's test for the error value. *)
Definition is_error (distance : Z) : bool := distance =? 0xFFFF.

(** The timer is set up with [TIM2_ARR = 0xFFFF] (line 197), so counter and
    capture values are ticks in [0, 65535]. *)
Definition TICK_MAX : Z := 0xFFFF.
Definition tick (z : Z) : Prop := 0 <= z <= TICK_MAX.

(** ** The monad *)

(** How a piece of the function body ends: it falls through with a value, it
    executes [return v], or the model's loop budget is used up. *)
Inductive outcome (A : Type) : Type :=
| Normal (a : A)
| Return (v : Z)
| OutOfFuel.
Arguments Normal {A} a.
Arguments Return {A} v.
Arguments OutOfFuel {A}.

Section Program.
Context {B : Board}.

Definition M (A : Type) : Type := hw -> outcome A * hw * list event.

Definition ret {A} (a : A) : M A := fun s => (Normal a, s, []).

Definition return_ {A} (v : Z) : M A := fun s => (Return v, s, []).

Definition bind {A C} (m : M A) (k : A -> M C) : M C :=
  fun s =>
    match m s with
    | (Normal a, s1, t1) =>
        match k a s1 with
        | (o, s2, t2) => (o, s2, t1 ++ t2)
        end
    | (Return v, s1, t1) => (Return v, s1, t1)
    | (OutOfFuel, s1, t1) => (OutOfFuel, s1, t1)
    end.

Notation "x <- m ;; k" := (bind m (fun x => k))
  (at level 61, m at next level, right associativity).
Notation "m ;; k" := (bind m (fun _ => k))
  (at level 61, right associativity).

(** A volatile read of a 32-bit register. *)
Definition rd (r : reg) : M Z :=
  fun s => let '(v, s1) := load r s in
           (Normal (wrap32 v), s1, [EvRead r (wrap32 v)]).

(** A volatile write. *)
Definition wr (r : reg) (v : Z) : M unit :=
  fun s => (Normal tt, store r v s, [EvWrite r v]).

(** [REG &= ~mask] and [REG |= mask]: a read followed by a write. *)
Definition clear_bits (r : reg) (mask : Z) : M unit :=
  v <- rd r ;; wr r (Z.land v (not32 mask)).

Definition set_bits (r : reg) (mask : Z) : M unit :=
  v <- rd r ;; wr r (Z.lor v mask).

Definition printf (fmt : string) (arg : Z) : M unit :=
  fun s => (Normal tt, s, [EvPrint fmt arg]).

(** Lines 80-88: [count = us * 42; while (count--) nop]. *)
Definition delay_us (us : Z) : M unit :=
  fun s => (Normal tt, Nat.iter (Z.to_nat (wrap32 (us * 42))) nop s, []).

(** Lines 116-123 and 135-142: the polling loop
    [while (!(TIM2_SR & (1 << 2)) && --timeout) { if (TIM2_CNT > limit) return 0xFFFF; }].
    It falls through with the value [timeout] has when the loop is left.
    [fuel] bounds the number of iterations of the model. *)
Fixpoint wait_capture (fuel : nat) (limit timeout : Z) : M Z :=
  match fuel with
  | O => fun s => (OutOfFuel, s, [])
  | S fuel' =>
      sr <- rd TIM2_SR ;;
      if Z.land sr (Z.shiftl 1 2) =? 0
      then
        let timeout' := wrap32 (timeout - 1) in
        if timeout' =? 0
        then ret timeout'
        else
          cnt <- rd TIM2_CNT ;;
          if cnt >? limit
          then return_ 0xFFFF
          else wait_capture fuel' limit timeout'
      else ret timeout
  end.

(** Lines 100-112: clear the stale flag, reset the counter, select the rising
    edge, pulse TRIG. *)
Definition arm_and_trigger : M unit :=
  clear_bits TIM2_SR (Z.shiftl 1 2) ;;
  wr TIM2_CNT 0 ;;
  clear_bits TIM2_CCER (Z.shiftl 1 5) ;;
  set_bits GPIOA_ODR (Z.shiftl 1 0) ;;
  delay_us 100 ;;
  clear_bits GPIOA_ODR (Z.shiftl 1 0).

(** Lines 114-131: wait for the rising edge, latch [start_time], clear the
    flag and switch the channel to the falling edge. *)
Definition capture_rising : M Z :=
  timeout <- wait_capture (Z.to_nat 50000) 60000 50000 ;;
  if timeout =? 0 then return_ 0xFFFF
  else
    start_time <- rd TIM2_CCR2 ;;
    clear_bits TIM2_SR (Z.shiftl 1 2) ;;
    set_bits TIM2_CCER (Z.shiftl 1 5) ;;
    ret start_time.

(** Lines 133-147: wait for the falling edge, latch [end_time], clear the
    flag. *)
Definition capture_falling : M Z :=
  timeout <- wait_capture (Z.to_nat 50000) 30000 50000 ;;
  if timeout =? 0 then return_ 0xFFFF
  else
    end_time <- rd TIM2_CCR2 ;;
    clear_bits TIM2_SR (Z.shiftl 1 2) ;;
    ret end_time.

(** Lines 149-171. *)
Definition report_distance (start_time end_time : Z) : M Z :=
  let pw := pulse_width start_time end_time in
  printf "Pulse width: %lu us\r\n" pw ;;
  let d := distance_cm pw in
  printf "Distance: %lu cm\n" d ;;
  ret d.

(** Lines 96-172, the body in program order. *)
Definition measure_body : M Z :=
  arm_and_trigger ;;
  start_time <- capture_rising ;;
  end_time <- capture_falling ;;
  report_distance start_time end_time.

(** A call of [measure_distance_cm]: the value handed to the caller (if the
    model's budget was enough), the board afterwards and the trace. *)
Definition measure_distance_cm (s : hw) : option Z * hw * list event :=
  match measure_body s with
  | (Normal v, s', t) => (Some v, s', t)
  | (Return v, s', t) => (Some v, s', t)
  | (OutOfFuel, s', t) => (None, s', t)
  end.

End Program.

(** ** Traces *)

(** The values read from register [r], in program order. *)
Fixpoint reads_of (r : reg) (t : list event) : list Z :=
  match t with
  | [] => []
  | EvRead r' v :: t' =>
      if reg_eqb r r' then v :: reads_of r t' else reads_of r t'
  | _ :: t' => reads_of r t'
  end.

(** The values latched from the capture register [TIM2_CCR2]. *)
Definition captures (t : list event) : list Z := reads_of TIM2_CCR2 t.

(** A counter reading above [limit] is the last thing in the trace. *)
Fixpoint stops_at_overrun (limit : Z) (t : list event) : Prop :=
  match t with
  | [] => True
  | EvRead TIM2_CNT v :: t' =>
      (v > limit -> t' = []) /\ stops_at_overrun limit t'
  | _ :: t' => stops_at_overrun limit t'
  end.

(** The trace consists of polls only: reads of the status register and of the
    counter. *)
Definition poll_event (e : event) : Prop :=
  match e with
  | EvRead TIM2_SR _ | EvRead TIM2_CNT _ => True
  | _ => False
  end.

(** The trace opens with the re-arming of lines 100-107: the capture flag is
    written back clear, the counter is written 0, and the polarity bit CC2P
    is written back clear (rising edge). *)
Definition rearms (t : list event) : Prop :=
  exists sr sr' ccer ccer' rest,
    t = EvRead TIM2_SR sr :: EvWrite TIM2_SR sr' :: EvWrite TIM2_CNT 0 ::
        EvRead TIM2_CCER ccer :: EvWrite TIM2_CCER ccer' :: rest /\
    Z.testbit sr' 2 = false /\ Z.testbit ccer' 5 = false.

(** ** What the polling loop sees *)

(** Bit 2 of the status register: the channel-2 capture flag. *)
Definition cc2if (sr : Z) : bool := negb (Z.land sr (Z.shiftl 1 2) =? 0).

Section Observations.
Context {B : Board}.

(** The board after a program fragment has run. *)
Definition after {A} (m : M A) (s : hw) : hw := snd (fst (m s)).

(** The trace a program fragment leaves. *)
Definition trace_of {A} (m : M A) (s : hw) : list event := snd (m s).

(** The value handed back by a call. *)
Definition returned (s : hw) : option Z := fst (fst (measure_distance_cm s)).

(** One full poll: the status register, then the counter. *)
Definition one_poll (s : hw) : hw := snd (load TIM2_CNT (snd (load TIM2_SR s))).

Fixpoint poll_state (k : nat) (s : hw) : hw :=
  match k with
  | O => s
  | S k' => poll_state k' (one_poll s)
  end.

(** The status and counter values the [k]-th poll reads (from 0), when the
    wait starts on board [s] and is still polling. *)
Definition sr_poll (k : nat) (s : hw) : Z :=
  wrap32 (fst (load TIM2_SR (poll_state k s))).

Definition cnt_poll (k : nat) (s : hw) : Z :=
  wrap32 (fst (load TIM2_CNT (snd (load TIM2_SR (poll_state k s))))).

(** No flag and no counter reading above [limit] in the polls before [k]. *)
Definition quiet_until (limit : Z) (s : hw) (k : nat) : Prop :=
  forall j, (j < k)%nat ->
    cc2if (sr_poll j s) = false /\ cnt_poll j s <= limit.

(** The capture flag is first seen at poll [k], inside both guards: fewer
    than 50000 polls, and no earlier counter reading above [limit]. *)
Definition captured_at (limit : Z) (s : hw) (k : nat) : Prop :=
  Z.of_nat k < 50000 /\ quiet_until limit s k /\ cc2if (sr_poll k s) = true.

(** A cycle on which the rising-edge wait sees no capture inside its bound. *)
Definition no_rising_edge (s : hw) : Prop :=
  forall k, ~ captured_at 60000 (after arm_and_trigger s) k.

(** A cycle that latches [start] on the rising edge and then sees no capture
    inside the bound of the falling-edge wait. *)
Definition rising_only (s : hw) (start : Z) : Prop :=
  exists s2 t2,
    capture_rising (after arm_and_trigger s) = (Normal start, s2, t2) /\
    forall k, ~ captured_at 30000 s2 k.

End Observations.

(** ** A scripted board *)

(** A test double for the timer: the values the status register, the counter
    and the capture register will deliver, one per read.  A script that has
    run out delivers 0; the other registers read 0; writes and [nop] leave
    the script alone. *)
Record script : Type := {
  sr_in : list Z;
  cnt_in : list Z;
  ccr2_in : list Z
}.

Definition script_load (r : reg) (s : script) : Z * script :=
  match r with
  | TIM2_SR =>
      (hd 0 (sr_in s),
       {| sr_in := tl (sr_in s); cnt_in := cnt_in s; ccr2_in := ccr2_in s |})
  | TIM2_CNT =>
      (hd 0 (cnt_in s),
       {| sr_in := sr_in s; cnt_in := tl (cnt_in s); ccr2_in := ccr2_in s |})
  | TIM2_CCR2 =>
      (hd 0 (ccr2_in s),
       {| sr_in := sr_in s; cnt_in := cnt_in s; ccr2_in := tl (ccr2_in s) |})
  | _ => (0, s)
  end.

#[export] Instance Scripted : Board := {
  hw := script;
  load := script_load;
  store := fun _ _ s => s;
  nop := fun s => s
}.

(** No echo at all: the stale flag is set on entry, the first poll finds the
    flag clear and the counter already past 60000. *)
Definition silent_board : script :=
  {| sr_in := [4; 0]; cnt_in := [60001]; ccr2_in := [] |}.

(** Rising edge latched at tick 500 on the first poll, then the counter passes
    30000 without a falling edge. *)
Definition stuck_high_board : script :=
  {| sr_in := [0; 4; 4; 0]; cnt_in := [30001]; ccr2_in := [500] |}.

(** Rising edge seen at the third poll and latched at tick 20000; the falling
    edge comes 15000 ticks later, at tick 35000, and is flagged at the second
    poll of the falling-edge wait, whose first poll reads the counter at
    30001. *)
Definition late_echo_board : script :=
  {| sr_in := [0; 0; 0; 4; 4; 0; 4; 4];
     cnt_in := [10000; 19990; 30001];
     ccr2_in := [20000; 35000] |}.

(** A clean echo: the rising edge is flagged at the second poll and latched
    as [start_time], the falling edge is flagged at the second poll of the
    next wait and latched as [end_time]. *)
Definition echo_board (start_time end_time : Z) : script :=
  {| sr_in := [0; 0; 4; 4; 0; 4; 4];
     cnt_in := [start_time - 1; end_time - 1];
     ccr2_in := [start_time; end_time] |}.

(** Two clean echoes in a row with the same capture values. *)
Definition two_echo_board (start_time end_time : Z) : script :=
  {| sr_in := sr_in (echo_board start_time end_time) ++
              sr_in (echo_board start_time end_time);
     cnt_in := cnt_in (echo_board start_time end_time) ++
               cnt_in (echo_board start_time end_time);
     ccr2_in := ccr2_in (echo_board start_time end_time) ++
                ccr2_in (echo_board start_time end_time) |}.

(** The reading of the specification under which the falling-edge bound of
    30000 ticks runs from the rising-edge capture: whenever a rising edge is latched as [start] and the flag
    is then seen before any counter reading above [start + 30000], the call
    hands back a distance computed from two captures. *)
Definition falling_bound_from_rising_capture : Prop :=
  forall (B : Board) (s : hw) (start : Z) (s2 : hw) (t2 : list event) (k : nat),
    capture_rising (after arm_and_trigger s) = (Normal start, s2, t2) ->
    captured_at (start + 30000) s2 k ->
    exists end_time s' t,
      measure_distance_cm s =
        (Some (distance_cm (pulse_width start end_time)), s', t) /\
      captures t = [start; end_time].

(** The reading of the specification under which the two timeouts hand back
    different values. *)
Definition timeouts_distinguished : Prop :=
  forall (B : Board) (s s0 : hw) (start : Z),
    rising_only s start -> no_rising_edge s0 -> returned s <> returned s0.

(** ** More about traces *)

(** The values written to register [r], in program order. *)
Fixpoint writes_of (r : reg) (t : list event) : list Z :=
  match t with
  | [] => []
  | EvWrite r' v :: t' =>
      if reg_eqb r r' then v :: writes_of r t' else writes_of r t'
  | _ :: t' => writes_of r t'
  end.

(** The console lines, in program order. *)
Fixpoint prints (t : list event) : list (string * Z) :=
  match t with
  | [] => []
  | EvPrint fmt arg :: t' => (fmt, arg) :: prints t'
  | _ :: t' => prints t'
  end.

(** The bit a read-modify-write of [measure_distance_cm] is after: CC2IF in
    the status register (lines 101, 128, 147), CC2P in the capture enable
    register (lines 107, 131), PA0 in the output data register (lines 110,
    112). *)
Definition own_bit (r : reg) : option Z :=
  match r with
  | TIM2_SR => Some 2
  | TIM2_CCER => Some 5
  | GPIOA_ODR => Some 0
  | _ => None
  end.

(** Two register values that agree on every bit of the 32 except bit [i]. *)
Definition same_but (i v0 v : Z) : Prop :=
  forall j, 0 <= j < 32 -> j <> i -> Z.testbit v j = Z.testbit v0 j.

(** Every write of the trace is either [TIM2_CNT = 0] or the write-back of
    the value just read from the same register with at most its own bit
    changed.  [prev] is the event before the trace. *)
Fixpoint disciplined (prev : option event) (t : list event) : Prop :=
  match t with
  | [] => True
  | e :: t' =>
      match e with
      | EvWrite r v =>
          (r = TIM2_CNT /\ v = 0) \/
          (exists i v0, own_bit r = Some i /\ prev = Some (EvRead r v0) /\
                        same_but i v0 v)
      | _ => True
      end /\ disciplined (Some e) t'
  end.

(** Lines 127-131: latch the rising edge, clear the flag, select the falling
    edge. *)
Definition rising_latch (a sr ccer : Z) : list event :=
  [EvRead TIM2_CCR2 a;
   EvRead TIM2_SR sr; EvWrite TIM2_SR (Z.land sr (not32 (Z.shiftl 1 2)));
   EvRead TIM2_CCER ccer; EvWrite TIM2_CCER (Z.lor ccer (Z.shiftl 1 5))].

(** Lines 146-147: latch the falling edge, clear the flag. *)
Definition falling_latch (b sr : Z) : list event :=
  [EvRead TIM2_CCR2 b;
   EvRead TIM2_SR sr; EvWrite TIM2_SR (Z.land sr (not32 (Z.shiftl 1 2)))].

(** Lines 159 and 167: the two console lines of a measurement. *)
Definition report_lines (a b : Z) : list event :=
  [EvPrint "Pulse width: %lu us\r\n" (pulse_width a b);
   EvPrint "Distance: %lu cm\n" (distance_cm (pulse_width a b))].

Section MoreObservations.
Context {B : Board}.

(** The trace of [k] full polls from board [s]. *)
Fixpoint poll_trace (k : nat) (s : hw) : list event :=
  match k with
  | O => []
  | S k' =>
      EvRead TIM2_SR (sr_poll 0 s) :: EvRead TIM2_CNT (cnt_poll 0 s) ::
      poll_trace k' (one_poll s)
  end.

(** The trace of a call. *)
Definition events (s : hw) : list event := snd (measure_distance_cm s).

(** The trace of a wait that stops at poll [k] on a read of the status
    register: [k] full polls and that read. *)
Definition wait_trace (k : nat) (s : hw) : list event :=
  poll_trace k s ++ [EvRead TIM2_SR (sr_poll k s)].

(** ** The delays (main.c, lines 80-94) *)

(** Lines 83-87 as written: [while (count--) nop], on the 32-bit [count].
    The result is the board and the value [count] is left with. *)
Fixpoint delay_us_loop (fuel : nat) (count : Z) (s : hw) : option (hw * Z) :=
  match fuel with
  | O => None
  | S fuel' =>
      if count =? 0
      then Some (s, wrap32 (count - 1))
      else delay_us_loop fuel' (wrap32 (count - 1)) (nop s)
  end.

(** Lines 91-93: [for (i = 0; i < ms; i++) delay_us(1000)], from a given
    [i]. *)
Fixpoint delay_ms_from (fuel : nat) (i ms : Z) : M unit :=
  match fuel with
  | O => fun s => (OutOfFuel, s, [])
  | S fuel' =>
      if i <? ms
      then bind (delay_us 1000) (fun _ => delay_ms_from fuel' (wrap32 (i + 1)) ms)
      else ret tt
  end.

(** Lines 90-94. *)
Definition delay_ms (ms : Z) : M unit :=
  delay_ms_from (S (Z.to_nat ms)) 0 ms.

End MoreObservations.

(** ** The reporting loop of [main] (lines 215-226) *)

(** What one turn of the loop does to the outside world: the events of the
    call, and the status line [main] prints itself. *)
Inductive main_event : Type :=
| InCall (e : event)
| Printf0 (fmt : string)
| Printf1 (fmt : string) (arg : Z).

Section MainLoop.
Context {B : Board}.

(** Lines 217-225: one turn of [while (1)]. *)
Definition main_cycle (s : hw) : option (hw * list main_event) :=
  match measure_distance_cm s with
  | (Some distance, s1, t) =>
      let line :=
        if is_error distance
        then Printf0 "Distance Error or Timeout\r\n"
        else Printf1 "Distance: %lu cm\r\n" distance in
      match delay_ms 100 s1 with
      | (Normal _, s2, t') => Some (s2, map InCall t ++ [line] ++ map InCall t')
      | (_, _, _) => None
      end
  | (None, _, _) => None
  end.

(** The first [n] turns of the loop. *)
Fixpoint main_loop (n : nat) (s : hw) : option (hw * list main_event) :=
  match n with
  | O => Some (s, [])
  | S n' =>
      match main_cycle s with
      | Some (s1, t1) =>
          match main_loop n' s1 with
          | Some (s2, t2) => Some (s2, t1 ++ t2)
          | None => None
          end
      | None => None
      end
  end.

End MainLoop.

(** The status lines of [main] in a loop trace. *)
Fixpoint status_lines (t : list main_event) : list main_event :=
  match t with
  | [] => []
  | InCall _ :: t' => status_lines t'
  | e :: t' => e :: status_lines t'
  end.

(** ** The set-up of [main] (lines 176-208) *)

(** The registers the set-up writes.  [Meas r] is a register that
    [measure_distance_cm] uses as well. *)
Inductive creg : Type :=
| RCC_AHB1ENR
| RCC_APB1ENR
| GPIOA_MODER
| GPIOA_OTYPER
| GPIOA_AFRL
| TIM2_CR1
| TIM2_CCMR1
| TIM2_PSC
| TIM2_ARR
| Meas (r : reg).

Definition creg_eqb (a b : creg) : bool :=
  match a, b with
  | RCC_AHB1ENR, RCC_AHB1ENR | RCC_APB1ENR, RCC_APB1ENR
  | GPIOA_MODER, GPIOA_MODER | GPIOA_OTYPER, GPIOA_OTYPER
  | GPIOA_AFRL, GPIOA_AFRL | TIM2_CR1, TIM2_CR1 | TIM2_CCMR1, TIM2_CCMR1
  | TIM2_PSC, TIM2_PSC | TIM2_ARR, TIM2_ARR => true
  | Meas r, Meas r' => reg_eqb r r'
  | _, _ => false
  end.

(** The configuration registers as cells: a read gives what was last
    written.  [order] lists the registers written, oldest first. *)
Record setup : Type := {
  regs : creg -> Z;
  order : list creg
}.

Definition cfg_write (r : creg) (v : Z) (st : setup) : setup :=
  {| regs := fun r' => if creg_eqb r' r then v else regs st r';
     order := order st ++ [r] |}.

(** [REG &= ~mask], [REG |= mask] and [REG = v]. *)
Definition cfg_clear (r : creg) (mask : Z) (st : setup) : setup :=
  cfg_write r (Z.land (regs st r) (not32 mask)) st.

Definition cfg_set (r : creg) (mask : Z) (st : setup) : setup :=
  cfg_write r (Z.lor (regs st r) mask) st.

(** Lines 176-208 of [main], in program order. *)
Definition main_init (st : setup) : setup :=
  let st := cfg_set RCC_AHB1ENR (Z.shiftl 1 0) st in
  let st := cfg_clear GPIOA_MODER (Z.shiftl 0x3 0) st in
  let st := cfg_set GPIOA_MODER (Z.shiftl 0x1 0) st in
  let st := cfg_clear GPIOA_OTYPER (Z.shiftl 1 0) st in
  let st := cfg_clear GPIOA_MODER (Z.shiftl 0x3 2) st in
  let st := cfg_set GPIOA_MODER (Z.shiftl 0x2 2) st in
  let st := cfg_clear GPIOA_AFRL (Z.shiftl 0xF 4) st in
  let st := cfg_set GPIOA_AFRL (Z.shiftl 0x1 4) st in
  let st := cfg_set RCC_APB1ENR (Z.shiftl 1 0) st in
  let st := cfg_write TIM2_PSC 83 st in
  let st := cfg_write TIM2_ARR 0xFFFF st in
  let st := cfg_clear TIM2_CCMR1 (Z.shiftl 0xFF 8) st in
  let st := cfg_set TIM2_CCMR1 (Z.shiftl 1 8) st in
  let st := cfg_clear (Meas TIM2_CCER) (Z.shiftl 1 5) st in
  let st := cfg_set (Meas TIM2_CCER) (Z.shiftl 1 4) st in
  cfg_set TIM2_CR1 (Z.shiftl 1 0) st.

(** The peripheral clock a register sits behind: GPIOA on AHB1, TIM2 on
    APB1 (lines 176-177 and 190-191). *)
Definition clock_of (r : creg) : option creg :=
  match r with
  | GPIOA_MODER | GPIOA_OTYPER | GPIOA_AFRL | Meas GPIOA_ODR => Some RCC_AHB1ENR
  | TIM2_CR1 | TIM2_CCMR1 | TIM2_PSC | TIM2_ARR | Meas _ => Some RCC_APB1ENR
  | RCC_AHB1ENR | RCC_APB1ENR => None
  end.

(** In the list of registers written, each one comes after its clock
    register.  [seen] holds the registers written before the list. *)
Fixpoint clocked (seen : list creg) (l : list creg) : bool :=
  match l with
  | [] => true
  | r :: l' =>
      match clock_of r with
      | Some c => existsb (creg_eqb c) seen
      | None => true
      end && clocked (r :: seen) l'
  end.

(** A setup with the given register contents and nothing written yet. *)
Definition power_on (f : creg -> Z) : setup := {| regs := f; order := [] |}.

(** Boards for the examples: nothing ever answers. *)
Definition dead_board : script := {| sr_in := []; cnt_in := []; ccr2_in := [] |}.

(** Split a bit index below 32 into its 32 cases. *)
Ltac bit_cases j Hj :=
  let Hc := fresh "Hc" in
  assert (Hc : j = 0 \/ j = 1 \/ j = 2 \/ j = 3 \/ j = 4 \/ j = 5 \/ j = 6 \/
               j = 7 \/ j = 8 \/ j = 9 \/ j = 10 \/ j = 11 \/ j = 12 \/
               j = 13 \/ j = 14 \/ j = 15 \/ j = 16 \/ j = 17 \/ j = 18 \/
               j = 19 \/ j = 20 \/ j = 21 \/ j = 22 \/ j = 23 \/ j = 24 \/
               j = 25 \/ j = 26 \/ j = 27 \/ j = 28 \/ j = 29 \/ j = 30 \/
               j = 31) by lia;
  repeat (destruct Hc as [Hc | Hc]);
  subst j.

(** Distribute [Z.testbit] over the [|] and [&] of a mask expression. *)
Ltac push_testbit :=
  repeat match goal with
         | |- context [Z.testbit (Z.lor ?a ?b) ?j] => rewrite (Z.lor_spec a b j)
         | |- context [Z.testbit (Z.land ?a ?b) ?j] => rewrite (Z.land_spec a b j)
         end.

(** Decide a statement about one bit of a mask expression over [m]. *)
Ltac mask_bit m :=
  push_testbit;
  match goal with
  | |- context [Z.testbit m ?j] => destruct (Z.testbit m j)
  | _ => idtac
  end;
  vm_compute; reflexivity.

(** The same for every bit position below 32 that the hypotheses allow. *)
Ltac mask_bits m j Hj :=
  bit_cases j Hj;
  first [ exfalso; lia | intros; exfalso; lia | intros; mask_bit m ].

(** Name the value and the next board of every register read in the goal. *)
Ltac step_loads :=
  repeat match goal with
         | |- context [load ?r ?s] =>
             let v := fresh "v" in
             let s' := fresh "s" in
             destruct (load r s) as [v s']; cbv beta iota
         end.

(** ** Arithmetic of the conversion *)

Lemma wrap32_small (z : Z) : 0 <= z < 2 ^ 32 -> wrap32 z = z.
Proof. intros H. unfold wrap32. apply Z.mod_small. exact H. Qed.

Lemma wrap32_range (z : Z) : 0 <= wrap32 z < 2 ^ 32.
Proof. unfold wrap32. apply Z.mod_pos_bound. reflexivity. Qed.

Lemma pulse_width_no_wrap (start_time end_time : Z) :
  0 <= start_time -> end_time < 2 ^ 32 -> start_time <= end_time ->
  pulse_width start_time end_time = end_time - start_time.
Proof.
  intros Hs He Hle. unfold pulse_width.
  destruct (end_time >=? start_time) eqn:E; [| lia].
  apply wrap32_small. lia.
Qed.

Lemma pulse_width_wrapped (start_time end_time : Z) :
  tick start_time -> tick end_time -> end_time < start_time ->
  pulse_width start_time end_time = (TICK_MAX - start_time) + end_time + 1.
Proof.
  unfold tick, TICK_MAX. intros Hs He Hlt. unfold pulse_width.
  destruct (end_time >=? start_time) eqn:E; [lia |].
  change (2 ^ 32) with 4294967296 in *.
  rewrite (wrap32_small (65535 - start_time)) by (change (2 ^ 32) with 4294967296; lia).
  rewrite (wrap32_small (65535 - start_time + end_time)) by (change (2 ^ 32) with 4294967296; lia).
  apply wrap32_small. change (2 ^ 32) with 4294967296. lia.
Qed.

Lemma pulse_width_tick (start_time end_time : Z) :
  tick start_time -> tick end_time -> tick (pulse_width start_time end_time).
Proof.
  intros Hs He. destruct (Z_lt_le_dec end_time start_time) as [Hlt | Hle].
  - rewrite pulse_width_wrapped by assumption.
    unfold tick, TICK_MAX in *. lia.
  - rewrite pulse_width_no_wrap; unfold tick, TICK_MAX in *;
      change (2 ^ 32) with 4294967296; lia.
Qed.

Lemma distance_cm_exact (pw : Z) :
  tick pw -> distance_cm pw = pw * 343 / 4000.
Proof.
  unfold tick, TICK_MAX, distance_cm. intros H.
  rewrite wrap32_small; [reflexivity |]. change (2 ^ 32) with 4294967296. lia.
Qed.

Lemma distance_cm_bound (pw : Z) : tick pw -> 0 <= distance_cm pw <= 5619.
Proof.
  intros H. rewrite distance_cm_exact by exact H.
  unfold tick, TICK_MAX in H. split.
  - apply Z.div_pos; lia.
  - apply Z.lt_succ_r. apply Z.div_lt_upper_bound; lia.
Qed.

(** C1: when the falling-edge capture is not below the rising-edge capture,
    the pulse width of lines 150-152 is their plain difference. *)
Theorem pulse_width_direct (start_time end_time : Z) :
  0 <= start_time < 2 ^ 32 -> 0 <= end_time < 2 ^ 32 ->
  end_time >= start_time ->
  pulse_width start_time end_time = end_time - start_time.
Proof.
  intros Hs He Hge. apply pulse_width_no_wrap; lia.
Qed.

Lemma pulse_width_direct_witness : pulse_width 100 588 = 588 - 100.
Proof.
  apply (pulse_width_direct 100 588); [split | split |];
    first [ discriminate | reflexivity ].
Defined.

(** C2: when the falling-edge capture is below the rising-edge capture (one
    wraparound of the 16-bit count), the pulse width of line 156 is
    [(TICK_MAX - start) + end + 1] with [TICK_MAX = 65535]; captures 65500
    and 40 give 76. *)
Theorem pulse_width_wraparound (start_time end_time : Z) :
  tick start_time -> tick end_time -> end_time < start_time ->
  TICK_MAX = 65535 /\
  pulse_width start_time end_time = (TICK_MAX - start_time) + end_time + 1 /\
  pulse_width 65500 40 = 76.
Proof.
  intros Hs He Hlt. split; [reflexivity |]. split.
  - apply pulse_width_wrapped; assumption.
  - reflexivity.
Qed.

Lemma pulse_width_wraparound_witness :
  pulse_width 65500 40 = (TICK_MAX - 65500) + 40 + 1.
Proof.
  apply (pulse_width_wraparound 65500 40);
    first [ reflexivity | split; discriminate ].
Defined.

(** C7: for captures in [0, 65535] the pulse width, whichever branch computes
    it, lies in [0, 65535]. *)
Theorem pulse_width_in_range (start_time end_time : Z) :
  0 <= start_time <= 65535 -> 0 <= end_time <= 65535 ->
  0 <= pulse_width start_time end_time <= 65535.
Proof.
  intros Hs He. apply (pulse_width_tick start_time end_time); assumption.
Qed.

Lemma pulse_width_in_range_witness : 0 <= pulse_width 65500 40 <= 65535.
Proof.
  apply (pulse_width_in_range 65500 40); split; discriminate.
Defined.

(** C9: the distance is monotonically non-decreasing in the pulse width over
    the range of pulse widths. *)
Theorem distance_cm_monotone (p1 p2 : Z) :
  0 <= p1 -> p1 <= p2 -> p2 <= 65535 ->
  distance_cm p1 <= distance_cm p2 /\
  p1 * 343 / 4000 <= p2 * 343 / 4000.
Proof.
  intros H0 H12 H2.
  assert (Hdiv : p1 * 343 / 4000 <= p2 * 343 / 4000)
    by (apply Z.div_le_mono; lia).
  rewrite !distance_cm_exact by (unfold tick, TICK_MAX; lia).
  split; exact Hdiv.
Qed.

Lemma distance_cm_monotone_witness :
  distance_cm 488 <= distance_cm 500 /\ 488 * 343 / 4000 <= 500 * 343 / 4000.
Proof.
  apply (distance_cm_monotone 488 500); discriminate.
Defined.

(** ** Traces: bookkeeping *)

Lemma reads_of_app (r : reg) (t1 t2 : list event) :
  reads_of r (t1 ++ t2) = reads_of r t1 ++ reads_of r t2.
Proof.
  induction t1 as [| e t1 IH]; simpl; [reflexivity |].
  destruct e as [r' v | r' v | f a]; try exact IH.
  destruct (reg_eqb r r'); simpl; rewrite IH; reflexivity.
Qed.

Lemma captures_app (t1 t2 : list event) :
  captures (t1 ++ t2) = captures t1 ++ captures t2.
Proof. apply reads_of_app. Qed.

Lemma reg_eqb_eq (a b : reg) : reg_eqb a b = true <-> a = b.
Proof. destruct a, b; simpl; split; intros H; first [reflexivity | discriminate]. Qed.

Lemma In_reads_of (r : reg) (v : Z) (t : list event) :
  In (EvRead r v) t <-> In v (reads_of r t).
Proof.
  induction t as [| e t IH]; simpl; [tauto |].
  destruct e as [r' v' | r' v' | f a].
  - destruct (reg_eqb r r') eqn:E.
    + apply reg_eqb_eq in E. subst r'. simpl. split.
      * intros [H | H]; [left; congruence | right; tauto].
      * intros [H | H]; [left; congruence | right; tauto].
    + split.
      * intros [H | H]; [| tauto].
        inversion H; subst. destruct r; discriminate.
      * tauto.
  - split; [intros [H | H]; [discriminate | tauto] | tauto].
  - split; [intros [H | H]; [discriminate | tauto] | tauto].
Qed.

Lemma polls_capture_nothing (t : list event) :
  Forall poll_event t -> captures t = [].
Proof.
  induction 1 as [| e t He _ IH]; [reflexivity |].
  destruct e as [[] v | r v | f a]; simpl in *; try contradiction; exact IH.
Qed.

Lemma stops_at_overrun_app (limit : Z) (t1 t2 : list event) :
  reads_of TIM2_CNT t1 = [] -> stops_at_overrun limit t2 ->
  stops_at_overrun limit (t1 ++ t2).
Proof.
  intros H1 H2. induction t1 as [| e t1 IH]; simpl; [exact H2 |].
  destruct e as [[] v | r v | f a]; simpl in *;
    first [ discriminate | apply IH; exact H1 ].
Qed.

(** ** Runs on an arbitrary board *)

Section Runs.
Context {B : Board}.

Lemma quiet_until_shift (limit : Z) (s : hw) (k : nat) :
  quiet_until limit s (S k) -> quiet_until limit (one_poll s) k.
Proof.
  intros H j Hj. apply (H (S j)). lia.
Qed.

Lemma quiet_until_cons (limit : Z) (s : hw) (k : nat) :
  cc2if (sr_poll 0 s) = false -> cnt_poll 0 s <= limit ->
  quiet_until limit (one_poll s) k -> quiet_until limit s (S k).
Proof.
  intros Hf Hc H [| j] Hj; [split; assumption |].
  apply (H j). lia.
Qed.

(** The polling loop, for any starting budget that the fuel covers: either
    the flag is first seen at some poll [k] inside both guards and the loop
    falls through with [timeout - k], which is not 0; or no poll inside the
    guards sees the flag, and the loop ends with [timeout = 0] or with
    [return 0xFFFF].  In both cases it only polls. *)
Lemma wait_capture_spec (fuel : nat) (limit : Z) :
  forall (timeout : Z) (s : hw),
    1 <= timeout <= Z.of_nat fuel -> timeout < 2 ^ 32 ->
    exists o s' t,
      wait_capture fuel limit timeout s = (o, s', t) /\
      Forall poll_event t /\
      stops_at_overrun limit t /\
      Z.of_nat (List.length t) <= 2 * timeout - 1 /\
      ((exists k, Z.of_nat k < timeout /\ quiet_until limit s k /\
                  cc2if (sr_poll k s) = true /\
                  o = Normal (timeout - Z.of_nat k))
       \/
       ((o = Normal 0 \/ o = Return 0xFFFF) /\
        forall k, Z.of_nat k < timeout -> quiet_until limit s k ->
                  cc2if (sr_poll k s) = false)).
Proof.
  induction fuel as [| fuel IH]; intros timeout s Hfuel H32; [lia |].
  assert (Hsr : sr_poll 0 s = wrap32 (fst (load TIM2_SR s))) by reflexivity.
  assert (Hcnt : cnt_poll 0 s = wrap32 (fst (load TIM2_CNT (snd (load TIM2_SR s)))))
    by reflexivity.
  assert (Hone : one_poll s = snd (load TIM2_CNT (snd (load TIM2_SR s))))
    by reflexivity.
  cbn [wait_capture]. unfold bind at 1. unfold rd at 1.
  destruct (load TIM2_SR s) as [v s1]. cbn [fst snd] in Hsr, Hcnt, Hone.
  assert (Hflag : cc2if (sr_poll 0 s) = negb (Z.land (wrap32 v) (Z.shiftl 1 2) =? 0))
    by (rewrite Hsr; reflexivity).
  destruct (Z.land (wrap32 v) (Z.shiftl 1 2) =? 0) eqn:Eflag; cbn [negb] in Hflag.
  - (* flag clear: --timeout *)
    rewrite (wrap32_small (timeout - 1)) by lia.
    destruct (timeout - 1 =? 0) eqn:Ezero.
    + (* the iteration guard ends the loop *)
      apply Z.eqb_eq in Ezero.
      exists (Normal (timeout - 1)), s1, [EvRead TIM2_SR (wrap32 v)].
      split; [reflexivity |].
      split; [repeat constructor |].
      split; [exact I |].
      split; [cbn [List.length]; lia |].
      right. split; [left; f_equal; exact Ezero |].
      intros [| k] Hk _; [exact Hflag | lia].
    + apply Z.eqb_neq in Ezero.
      unfold bind at 1. unfold rd at 1.
      destruct (load TIM2_CNT s1) as [c s2]. cbn [fst snd] in Hcnt, Hone.
      destruct (wrap32 c >? limit) eqn:Eover.
      * (* the counter guard returns *)
        exists (Return 0xFFFF), s2,
          [EvRead TIM2_SR (wrap32 v); EvRead TIM2_CNT (wrap32 c)].
        split; [reflexivity |].
        split; [repeat constructor |].
        split; [cbn; tauto |].
        split; [cbn [List.length]; lia |].
        right. split; [right; reflexivity |].
        intros [| k] Hk Hq; [exact Hflag |].
        destruct (Hq 0%nat) as [_ Hle]; [lia |]. lia.
      * (* next iteration *)
        destruct (IH (timeout - 1) s2) as (o & s' & t & Hrun & Hpolls & Hstop & Hlen & Hcase);
          [lia | lia |].
        rewrite Hrun.
        exists o, s', (EvRead TIM2_SR (wrap32 v) :: EvRead TIM2_CNT (wrap32 c) :: t).
        split; [reflexivity |].
        split; [repeat constructor; exact Hpolls |].
        split; [cbn; split; [intros Hgt; lia | exact Hstop] |].
        split; [cbn [List.length]; lia |].
        rewrite <- Hone in Hcase.
        destruct Hcase as [(k & Hk & Hq & Hseen & Ho) | (Ho & Hnone)].
        -- left. exists (S k).
           split; [lia |].
           split; [apply quiet_until_cons; [exact Hflag | lia | exact Hq] |].
           split; [exact Hseen |].
           rewrite Ho. f_equal. lia.
        -- right. split; [exact Ho |].
           intros [| k] Hk Hq; [exact Hflag |].
           apply (Hnone k); [lia | apply quiet_until_shift; exact Hq].
  - (* flag set: the loop is left with [timeout] untouched *)
    exists (Normal timeout), s1, [EvRead TIM2_SR (wrap32 v)].
    split; [reflexivity |].
    split; [repeat constructor |].
    split; [exact I |].
    split; [cbn [List.length]; lia |].
    left. exists 0%nat.
    split; [lia |].
    split; [intros j Hj; lia |].
    split; [exact Hflag |].
    f_equal. lia.
Qed.

End Runs.

(** ** The phases of one cycle *)

Section Cycle.
Context {B : Board}.

(** Lines 100-112 always run to the end, and their trace is the re-arming of
    the timer followed by the trigger pulse. *)
Lemma arm_and_trigger_run (s : hw) :
  exists v c o1 o2,
    arm_and_trigger s =
      (Normal tt, after arm_and_trigger s,
       [EvRead TIM2_SR v; EvWrite TIM2_SR (Z.land v (not32 (Z.shiftl 1 2)));
        EvWrite TIM2_CNT 0;
        EvRead TIM2_CCER c; EvWrite TIM2_CCER (Z.land c (not32 (Z.shiftl 1 5)));
        EvRead GPIOA_ODR o1; EvWrite GPIOA_ODR (Z.lor o1 (Z.shiftl 1 0));
        EvRead GPIOA_ODR o2; EvWrite GPIOA_ODR (Z.land o2 (not32 (Z.shiftl 1 0)))]).
Proof.
  unfold after, arm_and_trigger, clear_bits, set_bits, bind, rd, wr, delay_us.
  step_loads. cbn [fst snd app].
  eexists _, _, _, _. reflexivity.
Qed.

Lemma capture_spec_aux (limit : Z) (s : hw) :
  exists o s' t,
    wait_capture (Z.to_nat 50000) limit 50000 s = (o, s', t) /\
    Forall poll_event t /\
    stops_at_overrun limit t /\
    Z.of_nat (List.length t) <= 99999 /\
    ((exists k x, captured_at limit s k /\ o = Normal x /\ x <> 0)
     \/
     ((o = Normal 0 \/ o = Return 0xFFFF) /\
      forall k, ~ captured_at limit s k)).
Proof.
  destruct (wait_capture_spec (Z.to_nat 50000) limit 50000 s)
    as (o & s' & t & Hrun & Hpolls & Hstop & Hlen & Hcase).
  - rewrite Z2Nat.id; lia.
  - reflexivity.
  - exists o, s', t.
    split; [exact Hrun |]. split; [exact Hpolls |].
    split; [exact Hstop |]. split; [lia |].
    destruct Hcase as [(k & Hk & Hq & Hseen & Ho) | (Ho & Hnone)].
    + left. exists k, (50000 - Z.of_nat k).
      split; [split; [exact Hk | split; assumption] |].
      split; [exact Ho | lia].
    + right. split; [exact Ho |].
      intros k (Hk & Hq & Hseen).
      rewrite (Hnone k Hk Hq) in Hseen. discriminate.
Qed.

(** Lines 114-131.  Either the rising edge is seen inside the bound and
    exactly one capture is latched, or it is not and the function returns
    0xFFFF having done nothing but poll. *)
Lemma capture_rising_spec (s : hw) :
  exists o s' t,
    capture_rising s = (o, s', t) /\
    ((exists k a, captured_at 60000 s k /\ o = Normal a /\
                  0 <= a < 2 ^ 32 /\ captures t = [a])
     \/
     ((forall k, ~ captured_at 60000 s k) /\ o = Return 0xFFFF /\
      Forall poll_event t /\ stops_at_overrun 60000 t /\
      Z.of_nat (List.length t) <= 99999)).
Proof.
  destruct (capture_spec_aux 60000 s)
    as (o & s1 & t & Hrun & Hpolls & Hstop & Hlen & Hcase).
  unfold capture_rising. unfold bind at 1. rewrite Hrun.
  destruct Hcase as [(k & x & Hcap & -> & Hx) | ([-> | ->] & Hnone)].
  - apply Z.eqb_neq in Hx. rewrite Hx.
    unfold clear_bits, set_bits, bind, rd, wr, ret.
    destruct (load TIM2_CCR2 s1) as [a s2]. cbv beta iota.
    step_loads.
    eexists _, _, _. split; [reflexivity |].
    left. exists k, (wrap32 a).
    split; [exact Hcap |]. split; [reflexivity |].
    split; [apply wrap32_range |].
    rewrite captures_app, (polls_capture_nothing t Hpolls). reflexivity.
  - cbn [Z.eqb]. unfold return_.
    exists (Return 0xFFFF), s1, (t ++ []).
    split; [reflexivity |]. right.
    rewrite app_nil_r. repeat split; assumption.
  - exists (Return 0xFFFF), s1, t.
    split; [reflexivity |]. right. repeat split; assumption.
Qed.

(** Lines 133-147, in the same way with the bound 30000. *)
Lemma capture_falling_spec (s : hw) :
  exists o s' t,
    capture_falling s = (o, s', t) /\
    ((exists k b, captured_at 30000 s k /\ o = Normal b /\
                  0 <= b < 2 ^ 32 /\ captures t = [b])
     \/
     ((forall k, ~ captured_at 30000 s k) /\ o = Return 0xFFFF /\
      Forall poll_event t /\ stops_at_overrun 30000 t /\
      Z.of_nat (List.length t) <= 99999)).
Proof.
  destruct (capture_spec_aux 30000 s)
    as (o & s1 & t & Hrun & Hpolls & Hstop & Hlen & Hcase).
  unfold capture_falling. unfold bind at 1. rewrite Hrun.
  destruct Hcase as [(k & x & Hcap & -> & Hx) | ([-> | ->] & Hnone)].
  - apply Z.eqb_neq in Hx. rewrite Hx.
    unfold clear_bits, bind, rd, wr, ret.
    destruct (load TIM2_CCR2 s1) as [b s2]. cbv beta iota.
    step_loads.
    eexists _, _, _. split; [reflexivity |].
    left. exists k, (wrap32 b).
    split; [exact Hcap |]. split; [reflexivity |].
    split; [apply wrap32_range |].
    rewrite captures_app, (polls_capture_nothing t Hpolls). reflexivity.
  - cbn [Z.eqb]. unfold return_.
    exists (Return 0xFFFF), s1, (t ++ []).
    split; [reflexivity |]. right.
    rewrite app_nil_r. repeat split; assumption.
  - exists (Return 0xFFFF), s1, t.
    split; [reflexivity |]. right. repeat split; assumption.
Qed.

End Cycle.

(** ** One call of [measure_distance_cm] *)

Section Call.
Context {B : Board}.

Lemma arm_and_trigger_eq (s : hw) :
  arm_and_trigger s =
    (Normal tt, after arm_and_trigger s, trace_of arm_and_trigger s).
Proof.
  destruct (arm_and_trigger_run s) as (v & c & o1 & o2 & H).
  unfold trace_of. rewrite H. reflexivity.
Qed.

Lemma arm_and_trigger_rearms (s : hw) (rest : list event) :
  rearms (trace_of arm_and_trigger s ++ rest).
Proof.
  destruct (arm_and_trigger_run s) as (v & c & o1 & o2 & H).
  unfold trace_of. rewrite H. cbn [snd app].
  eexists _, _, _, _, _. split; [reflexivity |].
  split; rewrite Z.land_spec; apply andb_false_intro2; reflexivity.
Qed.

Lemma arm_and_trigger_reads (s : hw) :
  captures (trace_of arm_and_trigger s) = [] /\
  reads_of TIM2_CNT (trace_of arm_and_trigger s) = [] /\
  List.length (trace_of arm_and_trigger s) = 9%nat.
Proof.
  destruct (arm_and_trigger_run s) as (v & c & o1 & o2 & H).
  unfold trace_of. rewrite H. repeat split.
Qed.

Lemma measure_no_rising (s : hw) v s2 t2 :
  capture_rising (after arm_and_trigger s) = (Return v, s2, t2) ->
  measure_distance_cm s = (Some v, s2, trace_of arm_and_trigger s ++ t2).
Proof.
  intros H2. unfold measure_distance_cm, measure_body.
  unfold bind. rewrite arm_and_trigger_eq, H2. reflexivity.
Qed.

Lemma measure_no_falling (s : hw) a s2 t2 v s3 t3 :
  capture_rising (after arm_and_trigger s) = (Normal a, s2, t2) ->
  capture_falling s2 = (Return v, s3, t3) ->
  measure_distance_cm s =
    (Some v, s3, trace_of arm_and_trigger s ++ t2 ++ t3).
Proof.
  intros H2 H3. unfold measure_distance_cm, measure_body.
  unfold bind. rewrite arm_and_trigger_eq, H2, H3. reflexivity.
Qed.

Lemma measure_done (s : hw) a s2 t2 b s3 t3 :
  capture_rising (after arm_and_trigger s) = (Normal a, s2, t2) ->
  capture_falling s2 = (Normal b, s3, t3) ->
  measure_distance_cm s =
    (Some (distance_cm (pulse_width a b)), s3,
     trace_of arm_and_trigger s ++ t2 ++ t3 ++
       [EvPrint "Pulse width: %lu us\r\n" (pulse_width a b);
        EvPrint "Distance: %lu cm\n" (distance_cm (pulse_width a b))]).
Proof.
  intros H2 H3. unfold measure_distance_cm, measure_body.
  unfold bind. rewrite arm_and_trigger_eq, H2, H3.
  unfold report_distance, bind, printf, ret. cbn [app]. reflexivity.
Qed.

Lemma rising_seen (s1 : hw) a s2 t2 :
  capture_rising s1 = (Normal a, s2, t2) ->
  (exists k, captured_at 60000 s1 k) /\ 0 <= a < 2 ^ 32 /\ captures t2 = [a].
Proof.
  intros H.
  destruct (capture_rising_spec s1)
    as (o & s' & t & Hrun & [(k & a' & Hcap & Ho & Ha & Hc) | (_ & Ho & _)]);
    rewrite H in Hrun; inversion Hrun; subst; [| discriminate].
  inversion H1; subst. split; [exists k; exact Hcap |]. split; assumption.
Qed.

(** Every call returns, re-arms the timer first, and ends in one of three
    ways: no rising edge inside the bound, a rising edge but no falling edge
    inside the bound, or two captures and the distance computed from them. *)
Lemma measure_cases (s : hw) :
  exists v s' t,
    measure_distance_cm s = (Some v, s', t) /\ rearms t /\
    ((no_rising_edge s /\ v = 0xFFFF /\ captures t = [] /\
      stops_at_overrun 60000 t /\ Z.of_nat (List.length t) <= 100008)
     \/
     (exists a, rising_only s a /\ v = 0xFFFF /\ captures t = [a])
     \/
     (exists a b s2 t2 k,
        capture_rising (after arm_and_trigger s) = (Normal a, s2, t2) /\
        captured_at 30000 s2 k /\
        0 <= a < 2 ^ 32 /\ 0 <= b < 2 ^ 32 /\
        v = distance_cm (pulse_width a b) /\ captures t = [a; b])).
Proof.
  destruct (arm_and_trigger_reads s) as (Hc1 & Hcnt1 & Hlen1).
  destruct (capture_rising_spec (after arm_and_trigger s))
    as (o2 & s2 & t2 & Hrun2 &
        [(k2 & a & Hcap2 & -> & Ha & Hc2) | (Hnone2 & -> & Hp2 & Hstop2 & Hlen2)]).
  - destruct (capture_falling_spec s2)
      as (o3 & s3 & t3 & Hrun3 &
          [(k3 & b & Hcap3 & -> & Hb & Hc3) | (Hnone3 & -> & Hp3 & Hstop3 & Hlen3)]).
    + eexists _, _, _. split; [apply (measure_done s a s2 t2 b s3 t3 Hrun2 Hrun3) |].
      split; [apply arm_and_trigger_rearms |].
      right. right. exists a, b, s2, t2, k3.
      repeat (split; [assumption || reflexivity |]).
      rewrite !captures_app, Hc1, Hc2, Hc3. reflexivity.
    + eexists _, _, _. split; [apply (measure_no_falling s a s2 t2 _ s3 t3 Hrun2 Hrun3) |].
      split; [apply arm_and_trigger_rearms |].
      right. left. exists a.
      split; [exists s2, t2; split; assumption |].
      split; [reflexivity |].
      rewrite !captures_app, Hc1, Hc2, (polls_capture_nothing t3 Hp3). reflexivity.
  - eexists _, _, _. split; [apply (measure_no_rising s _ s2 t2 Hrun2) |].
    split; [apply arm_and_trigger_rearms |].
    left. split; [exact Hnone2 |]. split; [reflexivity |].
    split; [rewrite captures_app, Hc1, (polls_capture_nothing t2 Hp2); reflexivity |].
    split; [apply stops_at_overrun_app; assumption |].
    rewrite length_app, Nat2Z.inj_add, Hlen1. lia.
Qed.

End Call.

(** ** The cycle-level properties *)

Section Properties.
Context {B : Board}.

Lemma no_capture_read (t : list event) :
  captures t = [] -> forall v, ~ In (EvRead TIM2_CCR2 v) t.
Proof.
  intros H v Hin. apply In_reads_of in Hin.
  unfold captures in H. rewrite H in Hin. exact Hin.
Qed.

Lemma rising_excludes_silence (s : hw) (a : Z) :
  rising_only s a -> no_rising_edge s -> False.
Proof.
  intros (s2 & t2 & Hrun & _) Hnone.
  destruct (rising_seen _ _ _ _ Hrun) as ((k & Hcap) & _).
  exact (Hnone k Hcap).
Qed.

Lemma silent_cycle (s : hw) :
  no_rising_edge s ->
  exists s' t,
    measure_distance_cm s = (Some 0xFFFF, s', t) /\
    captures t = [] /\
    Z.of_nat (List.length t) <= 100008 /\
    stops_at_overrun 60000 t.
Proof.
  intros Hnone.
  destruct (measure_cases s)
    as (v & s' & t & Hrun & _ &
        [(_ & -> & Hc & Hstop & Hlen) | [(a & Hr & _) | (a & b & s2 & t2 & k & Hr & _)]]).
  - exists s', t. repeat split; assumption.
  - destruct (rising_excludes_silence s a Hr Hnone).
  - destruct (rising_seen _ _ _ _ Hr) as ((k' & Hcap) & _).
    destruct (Hnone k' Hcap).
Qed.

Lemma two_captures_value (s : hw) v s' t a b :
  measure_distance_cm s = (Some v, s', t) ->
  captures t = [a; b] ->
  v = distance_cm (pulse_width a b).
Proof.
  intros Hrun Hc.
  destruct (measure_cases s)
    as (v0 & s0 & t0 & Hrun0 & _ &
        [(_ & _ & Hc0 & _) | [(a0 & _ & _ & Hc0) | (a0 & b0 & _ & _ & _ & _ & _ & _ & _ & Hv0 & Hc0)]]);
    rewrite Hrun in Hrun0; inversion Hrun0; subst;
    rewrite Hc in Hc0; try discriminate.
  inversion Hc0; subst. reflexivity.
Qed.

(** C4: a cycle whose rising-edge wait sees no capture inside its bound
    returns the error value 0xFFFF; it returns after at most 100008 register
    accesses (9 to re-arm and trigger, at most 50000 polls of the flag and
    49999 of the counter) and at the first counter reading above 60000; and
    its trace has no read of the capture register. *)
Theorem no_rising_edge_times_out (s : hw) :
  no_rising_edge s ->
  exists s' t,
    measure_distance_cm s = (Some 0xFFFF, s', t) /\
    is_error 0xFFFF = true /\
    (forall v, ~ In (EvRead TIM2_CCR2 v) t) /\
    Z.of_nat (List.length t) <= 100008 /\
    stops_at_overrun 60000 t.
Proof.
  intros Hnone.
  destruct (silent_cycle s Hnone) as (s' & t & Hrun & Hc & Hlen & Hstop).
  exists s', t. split; [exact Hrun |]. split; [reflexivity |].
  split; [apply no_capture_read; exact Hc |]. split; assumption.
Qed.

(** C5, as the code has it: a cycle that latches a rising edge and then sees
    no falling-edge capture inside the bound returns 0xFFFF after exactly one
    read of the capture register, and that is the very value a cycle without
    a rising edge returns. *)
Theorem no_falling_edge_times_out (s : hw) (start : Z) :
  rising_only s start ->
  exists s' t,
    measure_distance_cm s = (Some 0xFFFF, s', t) /\
    is_error 0xFFFF = true /\
    captures t = [start] /\
    forall s0, no_rising_edge s0 -> returned s0 = returned s.
Proof.
  intros Hr.
  assert (Hsilent : forall s0, no_rising_edge s0 -> returned s0 = Some 0xFFFF).
  { intros s0 H0. destruct (silent_cycle s0 H0) as (s' & t & Hrun & _).
    unfold returned. rewrite Hrun. reflexivity. }
  destruct (measure_cases s)
    as (v & s' & t & Hrun & _ &
        [(Hnone & _) | [(a & Hr' & -> & Hc) | (a & b & s2 & t2 & k & Hr2 & Hcap & _)]]).
  - destruct (rising_excludes_silence s start Hr Hnone).
  - exists s', t. split; [exact Hrun |]. split; [reflexivity |].
    destruct Hr as (s2 & t2 & H2 & _). destruct Hr' as (s2' & t2' & H2' & _).
    rewrite H2 in H2'. inversion H2'; subst.
    split; [exact Hc |].
    intros s0 H0. rewrite (Hsilent s0 H0). unfold returned. rewrite Hrun. reflexivity.
  - destruct Hr as (s2' & t2' & H2 & Hnone).
    rewrite H2 in Hr2. inversion Hr2; subst.
    destruct (Hnone k Hcap).
Qed.

(** C3, as the code has it: when a rising edge is latched and the flag of the
    falling edge is then seen inside the guards of the second wait - fewer
    than 50000 polls and no counter reading above 30000, the counter running
    from its reset at the start of the cycle - the second wait does not time
    out and the call returns the distance computed from the two captures,
    which for tick-range captures is not the error value. *)
Theorem falling_edge_inside_cycle_bound (s : hw) start s2 t2 k :
  capture_rising (after arm_and_trigger s) = (Normal start, s2, t2) ->
  captured_at 30000 s2 k ->
  exists end_time s' t,
    measure_distance_cm s =
      (Some (distance_cm (pulse_width start end_time)), s', t) /\
    captures t = [start; end_time] /\
    (tick start -> tick end_time ->
     is_error (distance_cm (pulse_width start end_time)) = false).
Proof.
  intros H2 Hcap.
  destruct (arm_and_trigger_reads s) as (Hc1 & _).
  destruct (rising_seen _ _ _ _ H2) as (_ & _ & Hc2).
  destruct (capture_falling_spec s2)
    as (o3 & s3 & t3 & Hrun3 &
        [(k3 & b & _ & -> & Hb & Hc3) | (Hnone3 & _)]).
  - exists b. eexists _, _.
    split; [apply (measure_done s start s2 t2 b s3 t3 H2 Hrun3) |].
    split; [rewrite !captures_app, Hc1, Hc2, Hc3; reflexivity |].
    intros Hs He.
    pose proof (distance_cm_bound _ (pulse_width_tick _ _ Hs He)) as Hd.
    unfold is_error. apply Z.eqb_neq. lia.
  - destruct (Hnone3 k Hcap).
Qed.

(** C6: a cycle that latched two captures returns
    [(pulse_width * 343) / 4000] in 32-bit unsigned arithmetic, which for
    tick-range captures is the plain integer quotient; captures 100 and 588
    give a pulse width of 488 and a distance of 41. *)
Theorem successful_cycle_distance (s : hw) v s' t a b :
  measure_distance_cm s = (Some v, s', t) ->
  captures t = [a; b] ->
  v = distance_cm (pulse_width a b) /\
  (tick a -> tick b -> v = pulse_width a b * 343 / 4000) /\
  pulse_width 100 588 = 488 /\
  distance_cm 488 = 41 /\ 488 * 343 / 4000 = 41.
Proof.
  intros Hrun Hc.
  pose proof (two_captures_value s v s' t a b Hrun Hc) as Hv.
  split; [exact Hv |].
  split; [| repeat split].
  intros Ha Hb. rewrite Hv. apply distance_cm_exact.
  apply pulse_width_tick; assumption.
Qed.

(** C8: for a pulse width in [0, 65535] the product [pulse_width * 343] is at
    most 22478505, below 2^32, so line 166 does not wrap; the distance is at
    most 5620 and is not the error value 0xFFFF.  Hence a cycle that latched
    two tick-range captures never returns the value that [main] takes for an
    error. *)
Theorem distance_never_sentinel (pw : Z) :
  0 <= pw <= 65535 ->
  pw * 343 <= 22478505 /\ 22478505 < 2 ^ 32 /\
  wrap32 (pw * 343) = pw * 343 /\
  distance_cm pw = pw * 343 / 4000 /\
  distance_cm pw <= 5620 /\
  distance_cm pw <> 0xFFFF /\
  forall (s : hw) v s' t a b,
    measure_distance_cm s = (Some v, s', t) ->
    captures t = [a; b] -> tick a -> tick b ->
    is_error v = false.
Proof.
  intros Hpw.
  pose proof (distance_cm_bound pw Hpw) as Hd.
  split; [lia |]. split; [reflexivity |].
  split; [apply wrap32_small; change (2 ^ 32) with 4294967296; lia |].
  split; [apply distance_cm_exact; exact Hpw |].
  split; [lia |]. split; [lia |].
  intros s v s' t a b Hrun Hc Ha Hb.
  rewrite (two_captures_value s v s' t a b Hrun Hc).
  pose proof (distance_cm_bound _ (pulse_width_tick _ _ Ha Hb)) as Hd'.
  unfold is_error. apply Z.eqb_neq. lia.
Qed.

End Properties.

Section Consecutive.
Context {B : Board}.

(** C10: two consecutive cycles that latch the same two capture values return
    the same distance.  Each of them opens by re-arming the timer (flag
    written back clear, counter written 0, polarity written back to rising),
    and the value a cycle returns is fixed by its two captures whatever board
    state it starts from. *)
Theorem consecutive_cycles_agree (s : hw) r1 s1 t1 r2 s2 t2 a b :
  measure_distance_cm s = (r1, s1, t1) ->
  measure_distance_cm s1 = (r2, s2, t2) ->
  captures t1 = [a; b] ->
  captures t2 = [a; b] ->
  r1 = r2 /\
  r2 = Some (distance_cm (pulse_width a b)) /\
  rearms t1 /\ rearms t2 /\
  forall s0 r0 s0' t0,
    measure_distance_cm s0 = (r0, s0', t0) -> captures t0 = [a; b] -> r0 = r2.
Proof.
  intros H1 H2 Hc1 Hc2.
  assert (Hany : forall s0 r0 s0' t0,
             measure_distance_cm s0 = (r0, s0', t0) -> captures t0 = [a; b] ->
             r0 = Some (distance_cm (pulse_width a b)) /\ rearms t0).
  { intros s0 r0 s0' t0 H0 Hc0.
    destruct (measure_cases s0) as (v & s' & t & Hrun & Hre & _).
    rewrite H0 in Hrun. inversion Hrun; subst.
    rewrite (two_captures_value s0 v s' t a b H0 Hc0). split; [reflexivity | exact Hre]. }
  destruct (Hany _ _ _ _ H1 Hc1) as [-> Hre1].
  destruct (Hany _ _ _ _ H2 Hc2) as [-> Hre2].
  repeat split; try assumption.
  intros s0 r0 s0' t0 H0 Hc0. apply (Hany _ _ _ _ H0 Hc0).
Qed.

End Consecutive.

(** ** The properties on the scripted board *)

Lemma silent_board_no_rising_edge : no_rising_edge silent_board.
Proof.
  intros [| k] (Hk & Hq & Hseen).
  - vm_compute in Hseen. discriminate.
  - destruct (Hq 0%nat) as [_ Hle]; [lia |].
    vm_compute in Hle. apply Hle. reflexivity.
Qed.

Lemma stuck_high_board_rising_only : rising_only stuck_high_board 500.
Proof.
  eexists _, _. split; [vm_compute; reflexivity |].
  intros [| k] (Hk & Hq & Hseen).
  - vm_compute in Hseen. discriminate.
  - destruct (Hq 0%nat) as [_ Hle]; [lia |].
    vm_compute in Hle. apply Hle. reflexivity.
Qed.

Lemma no_rising_edge_times_out_witness :
  exists s' t,
    measure_distance_cm silent_board = (Some 0xFFFF, s', t) /\
    is_error 0xFFFF = true /\
    (forall v, ~ In (EvRead TIM2_CCR2 v) t) /\
    Z.of_nat (List.length t) <= 100008 /\
    stops_at_overrun 60000 t.
Proof.
  apply (@no_rising_edge_times_out Scripted silent_board).
  intros [| k] (Hk & Hq & Hseen).
  - vm_compute in Hseen. discriminate.
  - destruct (Hq 0%nat) as [_ Hle]; [lia |].
    vm_compute in Hle. apply Hle. reflexivity.
Defined.

Lemma no_falling_edge_times_out_witness :
  exists s' t,
    measure_distance_cm stuck_high_board = (Some 0xFFFF, s', t) /\
    is_error 0xFFFF = true /\
    captures t = [500] /\
    forall s0, no_rising_edge s0 -> returned s0 = returned stuck_high_board.
Proof.
  apply (@no_falling_edge_times_out Scripted stuck_high_board 500).
  eexists _, _. split; [vm_compute; reflexivity |].
  intros [| k] (Hk & Hq & Hseen).
  - vm_compute in Hseen. discriminate.
  - destruct (Hq 0%nat) as [_ Hle]; [lia |].
    vm_compute in Hle. apply Hle. reflexivity.
Defined.

(** C5, as stated, fails: the cycle with a rising edge and no falling edge
    and the cycle with no rising edge both hand back 0xFFFF. *)
Lemma timeouts_not_distinguished : ~ timeouts_distinguished.
Proof.
  intros H.
  apply (H Scripted stuck_high_board silent_board 500).
  - exact stuck_high_board_rising_only.
  - exact silent_board_no_rising_edge.
  - vm_compute. reflexivity.
Qed.

Lemma falling_edge_inside_cycle_bound_witness :
  exists end_time s' t,
    measure_distance_cm (echo_board 100 588) =
      (Some (distance_cm (pulse_width 100 end_time)), s', t) /\
    captures t = [100; end_time] /\
    (tick 100 -> tick end_time ->
     is_error (distance_cm (pulse_width 100 end_time)) = false).
Proof.
  eapply (@falling_edge_inside_cycle_bound Scripted (echo_board 100 588) 100 _ _ 1%nat).
  - vm_compute. reflexivity.
  - split; [reflexivity |]. split; [| vm_compute; reflexivity].
    intros j Hj. assert (j = 0%nat) as -> by lia.
    vm_compute. split; [reflexivity | discriminate].
Defined.

(** C3, as stated, fails: on [late_echo_board] the rising edge is latched at
    tick 20000 and the falling edge is flagged with every counter reading at
    most 20000 + 30000, yet the first poll of the second wait reads 30001 and
    the call returns 0xFFFF after a single capture. *)
Lemma falling_bound_not_from_rising_capture :
  ~ falling_bound_from_rising_capture.
Proof.
  intros H.
  assert (Hhyp : exists s2 t2,
             capture_rising (after arm_and_trigger late_echo_board) =
               (Normal 20000, s2, t2) /\
             captured_at (20000 + 30000) s2 1).
  { eexists _, _. split; [vm_compute; reflexivity |].
    split; [reflexivity |]. split; [| vm_compute; reflexivity].
    intros j Hj. assert (j = 0%nat) as -> by lia.
    vm_compute. split; [reflexivity | discriminate]. }
  destruct Hhyp as (s2 & t2 & Hrise & Hfall).
  destruct (H Scripted late_echo_board 20000 s2 t2 1%nat Hrise Hfall)
    as (e & s' & t & Hrun & Hcap).
  apply (f_equal snd) in Hrun. cbn [snd] in Hrun.
  rewrite <- Hrun in Hcap. vm_compute in Hcap. discriminate.
Qed.

Lemma successful_cycle_distance_witness :
  41 = distance_cm (pulse_width 100 588) /\
  (tick 100 -> tick 588 -> 41 = pulse_width 100 588 * 343 / 4000) /\
  pulse_width 100 588 = 488 /\
  distance_cm 488 = 41 /\ 488 * 343 / 4000 = 41.
Proof.
  eapply (@successful_cycle_distance Scripted (echo_board 100 588) 41 _ _ 100 588).
  - vm_compute. reflexivity.
  - vm_compute. reflexivity.
Defined.

Lemma distance_never_sentinel_witness :
  distance_cm 65535 <= 5620 /\ distance_cm 65535 <> 0xFFFF.
Proof.
  destruct (@distance_never_sentinel Scripted 65535) as (_ & _ & _ & _ & H1 & H2 & _).
  - split; discriminate.
  - split; assumption.
Defined.

Lemma consecutive_cycles_agree_witness :
  returned (two_echo_board 100 588) =
  returned (snd (fst (measure_distance_cm (two_echo_board 100 588)))).
Proof.
  unfold returned.
  refine (proj1 (@consecutive_cycles_agree Scripted (two_echo_board 100 588)
                   _ (snd (fst (measure_distance_cm (two_echo_board 100 588))))
                   (snd (measure_distance_cm (two_echo_board 100 588)))
                   _ _ _ 100 588 _ _ _ _)).
  - vm_compute. reflexivity.
  - vm_compute. reflexivity.
  - vm_compute. reflexivity.
  - vm_compute. reflexivity.
Defined.

(** ** More arithmetic of the conversion *)

(** X1: the wraparound correction is subtraction modulo 65536.  If the
    counter stood at [start] and [elapsed] ticks later is latched again, the
    pulse width is [elapsed mod 65536]: exact below one full period of the
    counter, aliased from there on. *)
Theorem pulse_width_modular (start_time elapsed : Z) :
  tick start_time -> 0 <= elapsed ->
  pulse_width start_time ((start_time + elapsed) mod 65536) = elapsed mod 65536 /\
  (elapsed <= 65535 ->
   pulse_width start_time ((start_time + elapsed) mod 65536) = elapsed).
Proof.
  intros Hs He.
  assert (Hmain : pulse_width start_time ((start_time + elapsed) mod 65536)
                  = elapsed mod 65536).
  { rewrite <- (Z.add_mod_idemp_r start_time elapsed 65536) by lia.
    pose proof (Z.mod_pos_bound elapsed 65536 eq_refl) as Hd.
    set (d := elapsed mod 65536) in *. clearbody d.
    unfold tick, TICK_MAX in Hs.
    destruct (Z_lt_le_dec (start_time + d) 65536) as [Hlo | Hhi].
    - rewrite Z.mod_small by lia.
      rewrite pulse_width_no_wrap; change (2 ^ 32) with 4294967296; lia.
    - assert (Hend : (start_time + d) mod 65536 = start_time + d - 65536).
      { symmetry. apply (Z.mod_unique_pos _ _ 1); lia. }
      rewrite Hend.
      rewrite pulse_width_wrapped; unfold tick, TICK_MAX; lia. }
  split; [exact Hmain |].
  intros Hsmall. rewrite Hmain. apply Z.mod_small. lia.
Qed.

Lemma pulse_width_modular_witness :
  pulse_width 65500 ((65500 + 76) mod 65536) = 76 mod 65536 /\
  (76 <= 65535 -> pulse_width 65500 ((65500 + 76) mod 65536) = 76).
Proof.
  apply (pulse_width_modular 65500 76); [split |]; discriminate.
Defined.

(** X2: for a pulse width in tick range the distance is 0 exactly when the
    pulse is shorter than 12 ticks. *)
Theorem distance_cm_zero_iff (pw : Z) :
  tick pw -> (distance_cm pw = 0 <-> pw <= 11).
Proof.
  intros Hpw. rewrite distance_cm_exact by exact Hpw.
  unfold tick, TICK_MAX in Hpw.
  rewrite Z.div_small_iff by lia. lia.
Qed.

Lemma distance_cm_zero_iff_witness : distance_cm 11 = 0 <-> 11 <= 11.
Proof.
  apply (distance_cm_zero_iff 11). split; discriminate.
Defined.



(** X4: line 166 is the plain quotient for every pulse width up to 12521770;
    at 12521771 the 32-bit product wraps and the distance falls from 1073741
    to 0. *)
Theorem distance_cm_exact_range (pw : Z) :
  0 <= pw <= 12521770 ->
  distance_cm pw = pw * 343 / 4000 /\
  distance_cm 12521770 = 1073741 /\
  distance_cm 12521771 = 0.
Proof.
  intros Hpw. split; [| split; reflexivity].
  unfold distance_cm. rewrite wrap32_small; [reflexivity |].
  change (2 ^ 32) with 4294967296. lia.
Qed.

Lemma distance_cm_exact_range_witness :
  distance_cm 100000 = 100000 * 343 / 4000 /\
  distance_cm 12521770 = 1073741 /\
  distance_cm 12521771 = 0.
Proof.
  apply (distance_cm_exact_range 100000). split; discriminate.
Defined.

(** ** The delays *)

Section Delays.
Context {B : Board}.

Lemma iter_nop_shift (n : nat) (s : hw) :
  Nat.iter n nop (nop s) = nop (Nat.iter n nop s).
Proof.
  rewrite <- Nat.iter_succ_r. apply Nat.iter_succ.
Qed.

Lemma delay_us_loop_spec (fuel : nat) :
  forall (count : Z) (s : hw),
    0 <= count < 2 ^ 32 -> count < Z.of_nat fuel ->
    delay_us_loop fuel count s =
      Some (Nat.iter (Z.to_nat count) nop s, 0xFFFFFFFF).
Proof.
  induction fuel as [| fuel IH]; intros count s Hc Hf; [lia |].
  cbn [delay_us_loop].
  destruct (count =? 0) eqn:E.
  - apply Z.eqb_eq in E. subst count. reflexivity.
  - apply Z.eqb_neq in E.
    rewrite (wrap32_small (count - 1)) by lia.
    rewrite IH by lia.
    replace (Z.to_nat count) with (S (Z.to_nat (count - 1))) by lia.
    rewrite Nat.iter_succ, iter_nop_shift. reflexivity.
Qed.

(** X5: the busy-wait of [delay_us] as written, [while (count--) nop] on the
    32-bit [count = us * 42], ends, has executed [nop] exactly
    [(us * 42) mod 2^32] times - the board [delay_us] leaves - and leaves
    [count] at 0xFFFFFFFF.  Up to [us = 102261126] that is [42 * us] nops;
    from 102261127 on the product wraps and the delay is shorter. *)
Theorem delay_us_loop_runs (us : Z) (s : hw) :
  0 <= us < 2 ^ 32 ->
  delay_us_loop (S (Z.to_nat (wrap32 (us * 42)))) (wrap32 (us * 42)) s =
    Some (after (delay_us us) s, 0xFFFFFFFF) /\
  delay_us us s = (Normal tt, Nat.iter (Z.to_nat (wrap32 (us * 42))) nop s, []) /\
  (us <= 102261126 -> wrap32 (us * 42) = 42 * us) /\
  wrap32 (102261127 * 42) = 38.
Proof.
  intros Hus.
  pose proof (wrap32_range (us * 42)) as Hr.
  split; [| split; [reflexivity | split; [| reflexivity]]].
  - rewrite delay_us_loop_spec by lia. reflexivity.
  - intros Hsmall. rewrite wrap32_small; [lia |].
    change (2 ^ 32) with 4294967296. lia.
Qed.

Lemma delay_ms_from_spec (fuel : nat) :
  forall (i ms : Z) (s : hw),
    0 <= i <= ms -> ms < 2 ^ 32 -> ms - i < Z.of_nat fuel ->
    delay_ms_from fuel i ms s =
      (Normal tt, Nat.iter (Z.to_nat (42000 * (ms - i))) nop s, []).
Proof.
  induction fuel as [| fuel IH]; intros i ms s Hi Hms Hf; [lia |].
  cbn [delay_ms_from].
  destruct (i <? ms) eqn:E.
  - apply Z.ltb_lt in E.
    unfold bind, delay_us.
    rewrite (wrap32_small (i + 1)) by lia.
    rewrite IH by lia. cbn [app]. f_equal. f_equal.
    change (wrap32 (1000 * 42)) with 42000.
    replace (Z.to_nat (42000 * (ms - i)))
      with (Z.to_nat (42000 * (ms - (i + 1))) + Z.to_nat 42000)%nat by lia.
    symmetry. apply Nat.iter_add.
  - apply Z.ltb_ge in E.
    replace (ms - i) with 0 by lia. reflexivity.
Qed.

Lemma delay_ms_spec (ms : Z) (s : hw) :
  0 <= ms < 2 ^ 32 ->
  delay_ms ms s = (Normal tt, Nat.iter (Z.to_nat (42000 * ms)) nop s, []).
Proof.
  intros Hms. unfold delay_ms.
  rewrite delay_ms_from_spec by lia.
  rewrite Z.sub_0_r. reflexivity.
Qed.

(** X6: [delay_ms ms] ends for every 32-bit [ms], touches no register and
    prints nothing, and has executed [nop] exactly [42000 * ms] times. *)
Theorem delay_ms_runs (ms : Z) (s : hw) :
  0 <= ms < 2 ^ 32 ->
  delay_ms ms s = (Normal tt, Nat.iter (Z.to_nat (42000 * ms)) nop s, []).
Proof. exact (delay_ms_spec ms s). Qed.

End Delays.

Lemma delay_us_loop_runs_witness :
  delay_us_loop (S (Z.to_nat (wrap32 (100 * 42)))) (wrap32 (100 * 42)) dead_board =
    Some (after (delay_us 100) dead_board, 0xFFFFFFFF) /\
  delay_us 100 dead_board =
    (Normal tt, Nat.iter (Z.to_nat (wrap32 (100 * 42))) nop dead_board, []) /\
  (100 <= 102261126 -> wrap32 (100 * 42) = 42 * 100) /\
  wrap32 (102261127 * 42) = 38.
Proof.
  apply (@delay_us_loop_runs Scripted 100 dead_board). split; [discriminate | reflexivity].
Defined.

Lemma delay_ms_runs_witness :
  delay_ms 100 dead_board =
    (Normal tt, Nat.iter (Z.to_nat (42000 * 100)) nop dead_board, []).
Proof.
  apply (@delay_ms_runs Scripted 100 dead_board). split; [discriminate | reflexivity].
Defined.

(** ** The exact trace of the polling loop *)

Section Polls.
Context {B : Board}.

Lemma poll_trace_polls (k : nat) :
  forall s, Forall poll_event (poll_trace k s).
Proof.
  induction k as [| k IH]; intros s; cbn [poll_trace];
    repeat constructor. apply IH.
Qed.

Lemma poll_trace_length (k : nat) :
  forall s, List.length (poll_trace k s) = (2 * k)%nat.
Proof.
  induction k as [| k IH]; intros s; cbn [poll_trace List.length];
    [reflexivity |].
  rewrite IH. lia.
Qed.

Lemma poll_trace_reads (k : nat) :
  forall s,
    List.length (reads_of TIM2_SR (poll_trace k s)) = k /\
    List.length (reads_of TIM2_CNT (poll_trace k s)) = k.
Proof.
  induction k as [| k IH]; intros s; cbn; [split; reflexivity |].
  destruct (IH (one_poll s)) as [H1 H2]. rewrite H1, H2. split; reflexivity.
Qed.

(** The loop in full: it stops at the first poll [k] that shows the flag,
    exhausts the iteration guard, or reads the counter above [limit]; its
    trace is the [k] polls before, and the last read or reads. *)
Lemma wait_capture_trace (fuel : nat) (limit : Z) :
  forall (timeout : Z) (s : hw),
    1 <= timeout <= Z.of_nat fuel -> timeout < 2 ^ 32 ->
    exists k,
      Z.of_nat k < timeout /\ quiet_until limit s k /\
      ((cc2if (sr_poll k s) = true /\
        wait_capture fuel limit timeout s =
          (Normal (timeout - Z.of_nat k), snd (load TIM2_SR (poll_state k s)),
           poll_trace k s ++ [EvRead TIM2_SR (sr_poll k s)]))
       \/
       (cc2if (sr_poll k s) = false /\ Z.of_nat k = timeout - 1 /\
        wait_capture fuel limit timeout s =
          (Normal 0, snd (load TIM2_SR (poll_state k s)),
           poll_trace k s ++ [EvRead TIM2_SR (sr_poll k s)]))
       \/
       (cc2if (sr_poll k s) = false /\ Z.of_nat k < timeout - 1 /\
        cnt_poll k s > limit /\
        wait_capture fuel limit timeout s =
          (Return 0xFFFF, poll_state (S k) s, poll_trace (S k) s))).
Proof.
  induction fuel as [| fuel IH]; intros timeout s Hfuel H32; [lia |].
  assert (Hsr : sr_poll 0 s = wrap32 (fst (load TIM2_SR s))) by reflexivity.
  assert (Hcnt : cnt_poll 0 s = wrap32 (fst (load TIM2_CNT (snd (load TIM2_SR s)))))
    by reflexivity.
  assert (Hone : one_poll s = snd (load TIM2_CNT (snd (load TIM2_SR s))))
    by reflexivity.
  assert (Hs1 : snd (load TIM2_SR (poll_state 0 s)) = snd (load TIM2_SR s))
    by reflexivity.
  destruct (wait_capture (S fuel) limit timeout s) as [[o s'] t] eqn:Hrun.
  cbn [wait_capture] in Hrun. unfold bind at 1 in Hrun. unfold rd at 1 in Hrun.
  destruct (load TIM2_SR s) as [v s1]. cbn [fst snd] in Hsr, Hcnt, Hone, Hs1.
  assert (Hflag : cc2if (sr_poll 0 s) = negb (Z.land (wrap32 v) (Z.shiftl 1 2) =? 0))
    by (rewrite Hsr; reflexivity).
  destruct (Z.land (wrap32 v) (Z.shiftl 1 2) =? 0) eqn:Eflag; cbn [negb] in Hflag.
  - rewrite (wrap32_small (timeout - 1)) in Hrun by lia.
    destruct (timeout - 1 =? 0) eqn:Ezero.
    + apply Z.eqb_eq in Ezero.
      unfold ret in Hrun. injection Hrun as <- <- <-.
      exists 0%nat. split; [lia |]. split; [intros j Hj; lia |].
      right. left. split; [exact Hflag |]. split; [lia |].
      rewrite Hs1, Hsr, Ezero. reflexivity.
    + apply Z.eqb_neq in Ezero.
      unfold bind at 1 in Hrun. unfold rd at 1 in Hrun.
      destruct (load TIM2_CNT s1) as [c s2]. cbn [fst snd] in Hcnt, Hone.
      destruct (wrap32 c >? limit) eqn:Eover.
      * unfold return_ in Hrun. injection Hrun as <- <- <-.
        exists 0%nat. split; [lia |]. split; [intros j Hj; lia |].
        right. right. split; [exact Hflag |]. split; [lia |].
        split; [lia |].
        cbn [poll_state poll_trace]. rewrite Hone, Hsr, Hcnt. reflexivity.
      * destruct (IH (timeout - 1) s2) as (k & Hk & Hq & Hcase); [lia | lia |].
        rewrite <- Hone in Hq, Hcase.
        exists (S k). split; [lia |].
        split; [apply quiet_until_cons; [exact Hflag | lia | exact Hq] |].
        change (sr_poll (S k) s) with (sr_poll k (one_poll s)).
        change (cnt_poll (S k) s) with (cnt_poll k (one_poll s)).
        change (poll_state (S k) s) with (poll_state k (one_poll s)).
        change (poll_state (S (S k)) s) with (poll_state (S k) (one_poll s)).
        cbn [poll_trace]. rewrite Hsr, Hcnt. rewrite Hone in Hcase |- *.
        destruct Hcase as [(Hf & Hrun') | [(Hf & Hlast & Hrun') | (Hf & Hlt & Hc & Hrun')]];
          rewrite Hrun' in Hrun; cbn [app] in Hrun;
          injection Hrun as <- <- <-.
        -- left. split; [exact Hf |].
           cbn [app]. do 2 f_equal. f_equal. lia.
        -- right. left. split; [exact Hf |]. split; [lia | reflexivity].
        -- right. right. split; [exact Hf |]. split; [lia |].
           split; [exact Hc | reflexivity].
  - unfold ret in Hrun. injection Hrun as <- <- <-.
    exists 0%nat. split; [lia |]. split; [intros j Hj; lia |].
    left. split; [exact Hflag |].
    rewrite Hs1, Hsr, Z.sub_0_r. reflexivity.
Qed.

Lemma first_capture_unique (limit : Z) (s : hw) (k k' : nat) :
  quiet_until limit s k -> cc2if (sr_poll k s) = true ->
  quiet_until limit s k' -> cc2if (sr_poll k' s) = true ->
  k = k'.
Proof.
  intros Hq Hf Hq' Hf'.
  destruct (Nat.lt_trichotomy k k') as [Hlt | [Heq | Hgt]]; [| exact Heq |].
  - destruct (Hq' k Hlt) as [Hc _]. rewrite Hc in Hf. discriminate.
  - destruct (Hq k' Hgt) as [Hc _]. rewrite Hc in Hf'. discriminate.
Qed.

End Polls.

(** ** The exact trace of a call *)

Section Shape.
Context {B : Board}.

Lemma wait_trace_polls (k : nat) (s : hw) : Forall poll_event (wait_trace k s).
Proof.
  unfold wait_trace. apply Forall_app. split; [apply poll_trace_polls |].
  repeat constructor.
Qed.

Lemma wait_trace_length (k : nat) (s : hw) :
  List.length (wait_trace k s) = (2 * k + 1)%nat.
Proof.
  unfold wait_trace. rewrite length_app, poll_trace_length. cbn [List.length]. lia.
Qed.

(** The guarded wait of lines 115-124 and 134-143 with its three ways
    out. *)
Lemma guarded_wait (limit : Z) (s : hw) :
  exists k,
    Z.of_nat k < 50000 /\ quiet_until limit s k /\
    ((cc2if (sr_poll k s) = true /\
      exists x, x <> 0 /\
        wait_capture (Z.to_nat 50000) limit 50000 s =
          (Normal x, snd (load TIM2_SR (poll_state k s)), wait_trace k s))
     \/
     (cc2if (sr_poll k s) = false /\ Z.of_nat k = 49999 /\
      wait_capture (Z.to_nat 50000) limit 50000 s =
        (Normal 0, snd (load TIM2_SR (poll_state k s)), wait_trace k s))
     \/
     (cc2if (sr_poll k s) = false /\ Z.of_nat k < 49999 /\
      cnt_poll k s > limit /\
      wait_capture (Z.to_nat 50000) limit 50000 s =
        (Return 0xFFFF, poll_state (S k) s, poll_trace (S k) s))).
Proof.
  destruct (wait_capture_trace (Z.to_nat 50000) limit 50000 s)
    as (k & Hk & Hq & Hcase); [rewrite Z2Nat.id; lia | reflexivity |].
  exists k. split; [exact Hk |]. split; [exact Hq |].
  destruct Hcase as [(Hf & Hrun) | [(Hf & Hlast & Hrun) | (Hf & Hlt & Hc & Hrun)]].
  - left. split; [exact Hf |]. exists (50000 - Z.of_nat k). split; [lia | exact Hrun].
  - right. left. split; [exact Hf |]. split; [lia | exact Hrun].
  - right. right. split; [exact Hf |]. split; [lia |]. split; [exact Hc | exact Hrun].
Qed.

Lemma capture_rising_trace (s : hw) :
  exists k,
    Z.of_nat k < 50000 /\ quiet_until 60000 s k /\
    ((cc2if (sr_poll k s) = true /\
      exists a sr c s',
        capture_rising s = (Normal a, s', wait_trace k s ++ rising_latch a sr c))
     \/
     (cc2if (sr_poll k s) = false /\ Z.of_nat k = 49999 /\
      exists s', capture_rising s = (Return 0xFFFF, s', wait_trace k s))
     \/
     (cc2if (sr_poll k s) = false /\ Z.of_nat k < 49999 /\
      cnt_poll k s > 60000 /\
      exists s', capture_rising s = (Return 0xFFFF, s', poll_trace (S k) s))).
Proof.
  destruct (guarded_wait 60000 s) as (k & Hk & Hq & Hcase).
  exists k. split; [exact Hk |]. split; [exact Hq |].
  destruct Hcase as [(Hf & x & Hx & Hrun) | [(Hf & Hlast & Hrun) | (Hf & Hlt & Hc & Hrun)]].
  - left. split; [exact Hf |].
    unfold capture_rising. unfold bind at 1. rewrite Hrun.
    apply Z.eqb_neq in Hx. rewrite Hx.
    unfold clear_bits, set_bits, bind, rd, wr, ret.
    step_loads. eexists _, _, _, _. unfold rising_latch. reflexivity.
  - right. left. split; [exact Hf |]. split; [exact Hlast |].
    eexists. unfold capture_rising. unfold bind at 1. rewrite Hrun.
    cbn [Z.eqb]. unfold return_. rewrite app_nil_r. reflexivity.
  - right. right. split; [exact Hf |]. split; [exact Hlt |]. split; [exact Hc |].
    eexists. unfold capture_rising. unfold bind at 1. rewrite Hrun. reflexivity.
Qed.

Lemma capture_falling_trace (s : hw) :
  exists k,
    Z.of_nat k < 50000 /\ quiet_until 30000 s k /\
    ((cc2if (sr_poll k s) = true /\
      exists b sr s',
        capture_falling s = (Normal b, s', wait_trace k s ++ falling_latch b sr))
     \/
     (cc2if (sr_poll k s) = false /\ Z.of_nat k = 49999 /\
      exists s', capture_falling s = (Return 0xFFFF, s', wait_trace k s))
     \/
     (cc2if (sr_poll k s) = false /\ Z.of_nat k < 49999 /\
      cnt_poll k s > 30000 /\
      exists s', capture_falling s = (Return 0xFFFF, s', poll_trace (S k) s))).
Proof.
  destruct (guarded_wait 30000 s) as (k & Hk & Hq & Hcase).
  exists k. split; [exact Hk |]. split; [exact Hq |].
  destruct Hcase as [(Hf & x & Hx & Hrun) | [(Hf & Hlast & Hrun) | (Hf & Hlt & Hc & Hrun)]].
  - left. split; [exact Hf |].
    unfold capture_falling. unfold bind at 1. rewrite Hrun.
    apply Z.eqb_neq in Hx. rewrite Hx.
    unfold clear_bits, bind, rd, wr, ret.
    step_loads. eexists _, _, _. unfold falling_latch. reflexivity.
  - right. left. split; [exact Hf |]. split; [exact Hlast |].
    eexists. unfold capture_falling. unfold bind at 1. rewrite Hrun.
    cbn [Z.eqb]. unfold return_. rewrite app_nil_r. reflexivity.
  - right. right. split; [exact Hf |]. split; [exact Hlt |]. split; [exact Hc |].
    eexists. unfold capture_falling. unfold bind at 1. rewrite Hrun. reflexivity.
Qed.

End Shape.

Section CallTrace.
Context {B : Board}.

(** A call in full: the re-arming and trigger, then the first wait with its
    three ways out, then - if the rising edge was latched - the second wait
    with its three ways out. *)
Lemma call_trace (s : hw) :
  exists k1,
    Z.of_nat k1 < 50000 /\
    quiet_until 60000 (after arm_and_trigger s) k1 /\
    ((cc2if (sr_poll k1 (after arm_and_trigger s)) = false /\
      Z.of_nat k1 = 49999 /\
      exists s',
        measure_distance_cm s =
          (Some 0xFFFF, s',
           trace_of arm_and_trigger s ++ wait_trace k1 (after arm_and_trigger s)))
     \/
     (cc2if (sr_poll k1 (after arm_and_trigger s)) = false /\
      Z.of_nat k1 < 49999 /\
      cnt_poll k1 (after arm_and_trigger s) > 60000 /\
      exists s',
        measure_distance_cm s =
          (Some 0xFFFF, s',
           trace_of arm_and_trigger s ++
             poll_trace (S k1) (after arm_and_trigger s)))
     \/
     (cc2if (sr_poll k1 (after arm_and_trigger s)) = true /\
      exists a sr c s2 k2,
        capture_rising (after arm_and_trigger s) =
          (Normal a, s2,
           wait_trace k1 (after arm_and_trigger s) ++ rising_latch a sr c) /\
        Z.of_nat k2 < 50000 /\ quiet_until 30000 s2 k2 /\
        ((cc2if (sr_poll k2 s2) = false /\ Z.of_nat k2 = 49999 /\
          exists s',
            measure_distance_cm s =
              (Some 0xFFFF, s',
               trace_of arm_and_trigger s ++
                 (wait_trace k1 (after arm_and_trigger s) ++ rising_latch a sr c) ++
                 wait_trace k2 s2))
         \/
         (cc2if (sr_poll k2 s2) = false /\ Z.of_nat k2 < 49999 /\
          cnt_poll k2 s2 > 30000 /\
          exists s',
            measure_distance_cm s =
              (Some 0xFFFF, s',
               trace_of arm_and_trigger s ++
                 (wait_trace k1 (after arm_and_trigger s) ++ rising_latch a sr c) ++
                 poll_trace (S k2) s2))
         \/
         (cc2if (sr_poll k2 s2) = true /\
          exists b sr2 s',
            measure_distance_cm s =
              (Some (distance_cm (pulse_width a b)), s',
               trace_of arm_and_trigger s ++
                 (wait_trace k1 (after arm_and_trigger s) ++ rising_latch a sr c) ++
                 (wait_trace k2 s2 ++ falling_latch b sr2) ++
                 report_lines a b))))).
Proof.
  destruct (capture_rising_trace (after arm_and_trigger s))
    as (k1 & Hk1 & Hq1 &
        [(Hf1 & a & sr & c & s2 & Hrun1) |
         [(Hf1 & Hlast1 & s2 & Hrun1) | (Hf1 & Hlt1 & Hc1 & s2 & Hrun1)]]);
    exists k1; (split; [exact Hk1 |]); (split; [exact Hq1 |]).
  - right. right. split; [exact Hf1 |].
    destruct (capture_falling_trace s2)
      as (k2 & Hk2 & Hq2 &
          [(Hf2 & b & sr2 & s3 & Hrun2) |
           [(Hf2 & Hlast2 & s3 & Hrun2) | (Hf2 & Hlt2 & Hc2 & s3 & Hrun2)]]);
      exists a, sr, c, s2, k2; (split; [exact Hrun1 |]);
      (split; [exact Hk2 |]); (split; [exact Hq2 |]).
    + right. right. split; [exact Hf2 |]. exists b, sr2, s3.
      apply (measure_done s a s2 _ b s3 _ Hrun1 Hrun2).
    + left. split; [exact Hf2 |]. split; [exact Hlast2 |]. exists s3.
      apply (measure_no_falling s a s2 _ _ s3 _ Hrun1 Hrun2).
    + right. left. split; [exact Hf2 |]. split; [exact Hlt2 |].
      split; [exact Hc2 |]. exists s3.
      apply (measure_no_falling s a s2 _ _ s3 _ Hrun1 Hrun2).
  - left. split; [exact Hf1 |]. split; [exact Hlast1 |]. exists s2.
    apply (measure_no_rising s _ s2 _ Hrun1).
  - right. left. split; [exact Hf1 |]. split; [exact Hlt1 |].
    split; [exact Hc1 |]. exists s2.
    apply (measure_no_rising s _ s2 _ Hrun1).
Qed.

(** The same without the poll indices: what matters to most properties is
    only that the waits poll and do nothing else. *)
Lemma call_shape (s : hw) :
  exists v s' t p1,
    measure_distance_cm s = (Some v, s', t) /\
    Forall poll_event p1 /\ Z.of_nat (List.length p1) <= 99999 /\
    ((v = 0xFFFF /\ t = trace_of arm_and_trigger s ++ p1)
     \/
     (exists a sr c p2,
        Forall poll_event p2 /\ Z.of_nat (List.length p2) <= 99999 /\
        ((v = 0xFFFF /\
          t = trace_of arm_and_trigger s ++ p1 ++ rising_latch a sr c ++ p2)
         \/
         (exists b sr2,
            v = distance_cm (pulse_width a b) /\
            t = trace_of arm_and_trigger s ++ p1 ++ rising_latch a sr c ++
                p2 ++ falling_latch b sr2 ++ report_lines a b)))).
Proof.
  assert (Hw : forall k s0, Z.of_nat k < 50000 ->
             Z.of_nat (List.length (wait_trace k s0)) <= 99999)
    by (intros k s0 Hk; rewrite wait_trace_length; lia).
  assert (Hp : forall k s0, Z.of_nat k < 49999 ->
             Z.of_nat (List.length (poll_trace (S k) s0)) <= 99999)
    by (intros k s0 Hk; rewrite poll_trace_length; lia).
  destruct (call_trace s)
    as (k1 & Hk1 & _ &
        [(_ & _ & s' & Hrun) | [(_ & Hlt1 & _ & s' & Hrun) |
         (_ & a & sr & c & s2 & k2 & _ & Hk2 & _ &
          [(_ & _ & s' & Hrun) | [(_ & Hlt2 & _ & s' & Hrun) |
           (_ & b & sr2 & s' & Hrun)]])]]).
  - eexists _, _, _, _. split; [exact Hrun |].
    split; [apply wait_trace_polls |]. split; [apply Hw; exact Hk1 |].
    left. split; reflexivity.
  - eexists _, _, _, _. split; [exact Hrun |].
    split; [apply poll_trace_polls |]. split; [apply Hp; exact Hlt1 |].
    left. split; reflexivity.
  - eexists _, _, _, _. split; [exact Hrun |].
    split; [apply wait_trace_polls |]. split; [apply Hw; exact Hk1 |].
    right. exists a, sr, c, (wait_trace k2 s2).
    split; [apply wait_trace_polls |]. split; [apply Hw; exact Hk2 |].
    left. split; [reflexivity |]. rewrite <- !app_assoc. reflexivity.
  - eexists _, _, _, _. split; [exact Hrun |].
    split; [apply wait_trace_polls |]. split; [apply Hw; exact Hk1 |].
    right. exists a, sr, c, (poll_trace (S k2) s2).
    split; [apply poll_trace_polls |]. split; [apply Hp; exact Hlt2 |].
    left. split; [reflexivity |]. rewrite <- !app_assoc. reflexivity.
  - eexists _, _, _, _. split; [exact Hrun |].
    split; [apply wait_trace_polls |]. split; [apply Hw; exact Hk1 |].
    right. exists a, sr, c, (wait_trace k2 s2).
    split; [apply wait_trace_polls |]. split; [apply Hw; exact Hk2 |].
    right. exists b, sr2. split; [reflexivity |].
    rewrite <- !app_assoc. reflexivity.
Qed.

End CallTrace.

(** ** Bits of the read-modify-writes *)

Lemma bit_of_one_shifted (i j : Z) :
  0 <= i -> 0 <= j -> Z.testbit (Z.shiftl 1 i) j = (i =? j).
Proof.
  intros Hi Hj. rewrite Z.shiftl_1_l. apply Z.pow2_bits_eqb. exact Hi.
Qed.

Lemma bit_of_not32 (m j : Z) :
  0 <= j < 32 -> Z.testbit (not32 m) j = negb (Z.testbit m j).
Proof.
  intros Hj. unfold not32, wrap32.
  rewrite Z.mod_pow2_bits_low by lia.
  apply Z.lnot_spec. lia.
Qed.

Lemma same_but_clear (i v : Z) :
  0 <= i -> same_but i v (Z.land v (not32 (Z.shiftl 1 i))).
Proof.
  intros Hi j Hj Hne.
  rewrite Z.land_spec, bit_of_not32, bit_of_one_shifted by lia.
  destruct (i =? j) eqn:E; [apply Z.eqb_eq in E; lia |].
  apply andb_true_r.
Qed.

Lemma same_but_set (i v : Z) :
  0 <= i -> same_but i v (Z.lor v (Z.shiftl 1 i)).
Proof.
  intros Hi j Hj Hne.
  rewrite Z.lor_spec, bit_of_one_shifted by lia.
  destruct (i =? j) eqn:E; [apply Z.eqb_eq in E; lia |].
  apply orb_false_r.
Qed.

Lemma bit_cleared (i v : Z) :
  0 <= i < 32 -> Z.testbit (Z.land v (not32 (Z.shiftl 1 i))) i = false.
Proof.
  intros Hi.
  rewrite Z.land_spec, bit_of_not32, bit_of_one_shifted, Z.eqb_refl by lia.
  apply andb_false_r.
Qed.

Lemma bit_set (i v : Z) :
  0 <= i -> Z.testbit (Z.lor v (Z.shiftl 1 i)) i = true.
Proof.
  intros Hi.
  rewrite Z.lor_spec, bit_of_one_shifted, Z.eqb_refl by lia.
  apply orb_true_r.
Qed.

(** ** More bookkeeping on traces *)

Lemma writes_of_app (r : reg) (t1 t2 : list event) :
  writes_of r (t1 ++ t2) = writes_of r t1 ++ writes_of r t2.
Proof.
  induction t1 as [| e t1 IH]; simpl; [reflexivity |].
  destruct e as [r' v | r' v | f a]; try exact IH.
  destruct (reg_eqb r r'); simpl; rewrite IH; reflexivity.
Qed.

Lemma prints_app (t1 t2 : list event) :
  prints (t1 ++ t2) = prints t1 ++ prints t2.
Proof.
  induction t1 as [| e t1 IH]; simpl; [reflexivity |].
  destruct e as [r' v | r' v | f a]; simpl; rewrite ?IH; reflexivity.
Qed.

Lemma polls_write_nothing (r : reg) (t : list event) :
  Forall poll_event t -> writes_of r t = [].
Proof.
  induction 1 as [| e t He _ IH]; [reflexivity |].
  destruct e as [r' v | r' v | f a]; simpl in *; try contradiction; exact IH.
Qed.

Lemma polls_print_nothing (t : list event) :
  Forall poll_event t -> prints t = [].
Proof.
  induction 1 as [| e t He _ IH]; [reflexivity |].
  destruct e as [r' v | r' v | f a]; simpl in *; try contradiction; exact IH.
Qed.

Lemma disciplined_after_polls (p rest : list event) :
  Forall poll_event p ->
  (forall prev, disciplined prev rest) ->
  forall prev, disciplined prev (p ++ rest).
Proof.
  intros Hp Hrest. induction Hp as [| e p He _ IH]; intros prev; [apply Hrest |].
  cbn [app disciplined]. split; [| apply IH].
  destruct e as [r v | r v | f a]; simpl in He; [exact I | contradiction | exact I].
Qed.

Section Arm.
Context {B : Board}.

Lemma arm_trace_eq (s : hw) :
  exists v c o1 o2,
    trace_of arm_and_trigger s =
      [EvRead TIM2_SR v; EvWrite TIM2_SR (Z.land v (not32 (Z.shiftl 1 2)));
       EvWrite TIM2_CNT 0;
       EvRead TIM2_CCER c; EvWrite TIM2_CCER (Z.land c (not32 (Z.shiftl 1 5)));
       EvRead GPIOA_ODR o1; EvWrite GPIOA_ODR (Z.lor o1 (Z.shiftl 1 0));
       EvRead GPIOA_ODR o2; EvWrite GPIOA_ODR (Z.land o2 (not32 (Z.shiftl 1 0)))].
Proof.
  destruct (arm_and_trigger_run s) as (v & c & o1 & o2 & H).
  exists v, c, o1, o2. unfold trace_of. rewrite H. reflexivity.
Qed.

Lemma events_eq (s : hw) v s' t :
  measure_distance_cm s = (Some v, s', t) -> events s = t /\ returned s = Some v.
Proof. intros H. unfold events, returned. rewrite H. split; reflexivity. Qed.

End Arm.

(** ** Properties of every call *)

Section EveryCall.
Context {B : Board}.

Ltac call_cases s :=
  let v := fresh "v" in
  let s' := fresh "s'" in
  let t := fresh "t" in
  let p1 := fresh "p1" in
  let p2 := fresh "p2" in
  let Hrun := fresh "Hrun" in
  let Hp1 := fresh "Hp1" in
  let Hp2 := fresh "Hp2" in
  let Hl1 := fresh "Hl1" in
  let Hl2 := fresh "Hl2" in
  let Hev := fresh "Hev" in
  let Hret := fresh "Hret" in
  let Harm := fresh "Harm" in
  let a := fresh "a" in
  let b := fresh "b" in
  let r0 := fresh "r0" in
  let c0 := fresh "c0" in
  let o1 := fresh "o1" in
  let o2 := fresh "o2" in
  let sr := fresh "sr" in
  let sr2 := fresh "sr2" in
  let c := fresh "c" in
  destruct (call_shape s)
    as (v & s' & t & p1 & Hrun & Hp1 & Hl1 &
        [(-> & ->) | (a & sr & c & p2 & Hp2 & Hl2 &
                      [(-> & ->) | (b & sr2 & -> & ->)])]);
  destruct (events_eq _ _ _ _ Hrun) as [Hev Hret];
  rewrite ?Hev, ?Hret;
  destruct (arm_trace_eq s) as (r0 & c0 & o1 & o2 & Harm);
  rewrite Harm.

(** X7: every call returns a value, and does so within 200017 events: 9 to
    re-arm and trigger, at most 99999 polls in each wait, 5 and 3 register
    accesses to latch the edges, 2 console lines. *)
Theorem call_bounded (s : hw) :
  returned s <> None /\ Z.of_nat (List.length (events s)) <= 200017.
Proof.
  call_cases s; (split; [discriminate |]);
    rewrite !length_app; cbn [List.length rising_latch falling_latch report_lines];
    lia.
Qed.

(** X8: a call that returns anything but 0xFFFF has latched two captures, and
    the value is the distance computed from them. *)
Theorem value_means_two_captures (s : hw) :
  returned s <> Some 0xFFFF ->
  exists a b,
    captures (events s) = [a; b] /\
    returned s = Some (distance_cm (pulse_width a b)).
Proof.
  intros Hv.
  destruct (measure_cases s)
    as (v & s' & t & Hrun & _ &
        [(_ & -> & _) | [(a & _ & -> & _) | (a & b & _ & _ & _ & _ & _ & _ & _ & -> & Hc)]]);
    destruct (events_eq _ _ _ _ Hrun) as [Hev Hret];
    rewrite Hret in Hv |- *; rewrite Hev; try (destruct Hv; reflexivity).
  exists a, b. split; [exact Hc | reflexivity].
Qed.

Lemma call_console (s : hw) :
  (returned s = Some 0xFFFF /\ prints (events s) = [] /\
   Z.of_nat (List.length (captures (events s))) <= 1)
  \/
  (exists a b,
     captures (events s) = [a; b] /\
     returned s = Some (distance_cm (pulse_width a b)) /\
     prints (events s) =
       [("Pulse width: %lu us\r\n"%string, pulse_width a b);
        ("Distance: %lu cm\n"%string, distance_cm (pulse_width a b))]).
Proof.
  call_cases s.
  - left. split; [reflexivity |].
    rewrite prints_app, captures_app, (polls_print_nothing _ Hp1),
      (polls_capture_nothing _ Hp1).
    split; [reflexivity | cbn; lia].
  - left. split; [reflexivity |].
    rewrite !prints_app, !captures_app, (polls_print_nothing _ Hp1),
      (polls_capture_nothing _ Hp1), (polls_print_nothing _ Hp2),
      (polls_capture_nothing _ Hp2).
    split; [reflexivity | cbn; lia].
  - right. exists a, b.
    rewrite !prints_app, !captures_app, (polls_print_nothing _ Hp1),
      (polls_capture_nothing _ Hp1), (polls_print_nothing _ Hp2),
      (polls_capture_nothing _ Hp2).
    repeat split.
Qed.

(** X9: a call that times out prints nothing; a call that latched two
    captures prints exactly two lines, the pulse width and then the distance
    it returns. *)
Theorem call_prints (s : hw) :
  (returned s = Some 0xFFFF /\ prints (events s) = [] /\
   Z.of_nat (List.length (captures (events s))) <= 1)
  \/
  (exists a b,
     captures (events s) = [a; b] /\
     returned s = Some (distance_cm (pulse_width a b)) /\
     prints (events s) =
       [("Pulse width: %lu us\r\n"%string, pulse_width a b);
        ("Distance: %lu cm\n"%string, distance_cm (pulse_width a b))]).
Proof. exact (call_console s). Qed.

(** X10: a call never disturbs a bit that is not its own.  Every write of its
    trace is the write-back of the value just read from that register with
    at most one bit changed - CC2IF in TIM2_SR, CC2P in TIM2_CCER, PA0 in
    GPIOA_ODR - except the one write [TIM2_CNT = 0]; the capture register is
    never written. *)
Theorem call_disciplined (s : hw) :
  disciplined None (events s) /\
  writes_of TIM2_CNT (events s) = [0] /\
  writes_of TIM2_CCR2 (events s) = [].
Proof.
  assert (Hclr : forall r i v0,
             own_bit r = Some i -> 0 <= i ->
             (r = TIM2_CNT /\ Z.land v0 (not32 (Z.shiftl 1 i)) = 0) \/
             (exists i' v0', own_bit r = Some i' /\
                             Some (EvRead r v0) = Some (EvRead r v0') /\
                             same_but i' v0' (Z.land v0 (not32 (Z.shiftl 1 i))))).
  { intros r i v0 Hr Hi. right. exists i, v0.
    split; [exact Hr |]. split; [reflexivity | apply same_but_clear; exact Hi]. }
  assert (Hset : forall r i v0,
             own_bit r = Some i -> 0 <= i ->
             (r = TIM2_CNT /\ Z.lor v0 (Z.shiftl 1 i) = 0) \/
             (exists i' v0', own_bit r = Some i' /\
                             Some (EvRead r v0) = Some (EvRead r v0') /\
                             same_but i' v0' (Z.lor v0 (Z.shiftl 1 i)))).
  { intros r i v0 Hr Hi. right. exists i, v0.
    split; [exact Hr |]. split; [reflexivity | apply same_but_set; exact Hi]. }
  assert (Hfall : forall b sr2 prev,
             disciplined prev (falling_latch b sr2 ++ report_lines 0 0)).
  { intros b sr2 prev. cbn [falling_latch report_lines app disciplined].
    repeat split. apply Hclr; [reflexivity | lia]. }
  assert (Hrise : forall a sr c rest,
             (forall prev, disciplined prev rest) ->
             forall prev, disciplined prev (rising_latch a sr c ++ rest)).
  { intros a sr c rest Hrest prev. cbn [rising_latch app disciplined].
    repeat split; try apply Hrest.
    - apply Hclr; [reflexivity | lia].
    - apply Hset; [reflexivity | lia]. }
  assert (Harmed : forall r0 c0 o1 o2 rest,
             (forall prev, disciplined prev rest) ->
             disciplined None
               ([EvRead TIM2_SR r0; EvWrite TIM2_SR (Z.land r0 (not32 (Z.shiftl 1 2)));
                 EvWrite TIM2_CNT 0;
                 EvRead TIM2_CCER c0; EvWrite TIM2_CCER (Z.land c0 (not32 (Z.shiftl 1 5)));
                 EvRead GPIOA_ODR o1; EvWrite GPIOA_ODR (Z.lor o1 (Z.shiftl 1 0));
                 EvRead GPIOA_ODR o2; EvWrite GPIOA_ODR (Z.land o2 (not32 (Z.shiftl 1 0)))]
                ++ rest)).
  { intros r0 c0 o1 o2 rest Hrest. cbn [app disciplined].
    repeat split; try apply Hrest.
    - apply Hclr; [reflexivity | lia].
    - left. split; reflexivity.
    - apply Hclr; [reflexivity | lia].
    - apply Hset; [reflexivity | lia].
    - apply Hclr; [reflexivity | lia]. }
  call_cases s.
  - split; [| split].
    + apply Harmed. intros prev. rewrite <- (app_nil_r p1).
      apply disciplined_after_polls; [exact Hp1 | intros; exact I].
    + rewrite writes_of_app, (polls_write_nothing _ _ Hp1). reflexivity.
    + rewrite writes_of_app, (polls_write_nothing _ _ Hp1). reflexivity.
  - split; [| split].
    + apply Harmed. apply disciplined_after_polls; [exact Hp1 |].
      apply Hrise. intros prev. rewrite <- (app_nil_r p2).
      apply disciplined_after_polls; [exact Hp2 | intros; exact I].
    + rewrite !writes_of_app, (polls_write_nothing _ _ Hp1),
        (polls_write_nothing _ _ Hp2). reflexivity.
    + rewrite !writes_of_app, (polls_write_nothing _ _ Hp1),
        (polls_write_nothing _ _ Hp2). reflexivity.
  - split; [| split].
    + apply Harmed. apply disciplined_after_polls; [exact Hp1 |].
      apply Hrise. apply disciplined_after_polls; [exact Hp2 |].
      intros prev. cbn [falling_latch report_lines app disciplined].
      repeat split. apply Hclr; [reflexivity | lia].
    + rewrite !writes_of_app, (polls_write_nothing _ _ Hp1),
        (polls_write_nothing _ _ Hp2). reflexivity.
    + rewrite !writes_of_app, (polls_write_nothing _ _ Hp1),
        (polls_write_nothing _ _ Hp2). reflexivity.
Qed.

(** X11: every call pulses TRIG exactly once: the output data register is
    written twice, first with PA0 set and then with PA0 clear, both within
    the first 9 events of the call, before the counter is read. *)
Theorem trigger_pulse (s : hw) :
  exists w1 w2,
    writes_of GPIOA_ODR (events s) = [w1; w2] /\
    Z.testbit w1 0 = true /\ Z.testbit w2 0 = false /\
    writes_of GPIOA_ODR (skipn 9 (events s)) = [] /\
    reads_of TIM2_CNT (firstn 9 (events s)) = [].
Proof.
  call_cases s; eexists _, _;
    (split;
     [rewrite ?writes_of_app, ?(polls_write_nothing _ _ Hp1),
        ?(polls_write_nothing _ _ Hp2); reflexivity |]);
    (split; [apply (bit_set 0); lia |]);
    (split; [apply (bit_cleared 0); lia |]);
    (split;
     [cbn [app skipn];
      rewrite ?writes_of_app, ?(polls_write_nothing _ _ Hp1),
        ?(polls_write_nothing _ _ Hp2); reflexivity |]);
    cbn [app firstn]; reflexivity.
Qed.

(** X12: the polarity a call leaves behind.  The first write to TIM2_CCER
    selects the rising edge; a call that latched no capture writes it no
    more, and a call that latched one writes it once more, selecting the
    falling edge - so after any such call the channel is left on the falling
    edge. *)
Theorem polarity_left (s : hw) :
  exists c1,
    Z.testbit c1 5 = false /\
    ((captures (events s) = [] /\ writes_of TIM2_CCER (events s) = [c1])
     \/
     (captures (events s) <> [] /\
      exists c2, writes_of TIM2_CCER (events s) = [c1; c2] /\
                 Z.testbit c2 5 = true)).
Proof.
  call_cases s; eexists;
    rewrite ?writes_of_app, ?captures_app, ?(polls_write_nothing _ _ Hp1),
      ?(polls_write_nothing _ _ Hp2), ?(polls_capture_nothing _ Hp1),
      ?(polls_capture_nothing _ Hp2);
    (split; [apply (bit_cleared 5); lia |]).
  - left. split; reflexivity.
  - right. split; [discriminate |]. eexists. split; [reflexivity |].
    apply (bit_set 5); lia.
  - right. split; [discriminate |]. eexists. split; [reflexivity |].
    apply (bit_set 5); lia.
Qed.

End EveryCall.

(** ** Exact poll counts *)

Section Counts.
Context {B : Board}.

Lemma wait_trace_reads (k : nat) (s : hw) :
  List.length (reads_of TIM2_SR (wait_trace k s)) = S k /\
  List.length (reads_of TIM2_CNT (wait_trace k s)) = k.
Proof.
  unfold wait_trace. rewrite !reads_of_app, !length_app.
  destruct (poll_trace_reads k s) as [-> ->]. cbn. lia.
Qed.

(** X13: when the first 50000 polls of the rising-edge wait show no flag and
    the 49999 counter readings between them stay at or below 60000, the
    iteration guard ends the call: it returns 0xFFFF after exactly 50000
    polls of the flag (50001 reads of TIM2_SR with the re-arming) and 49999
    reads of the counter, 100008 events in all. *)
Theorem iteration_guard_expires (s : hw) :
  (forall j, Z.of_nat j < 50000 ->
             cc2if (sr_poll j (after arm_and_trigger s)) = false) ->
  (forall j, Z.of_nat j < 49999 ->
             cnt_poll j (after arm_and_trigger s) <= 60000) ->
  returned s = Some 0xFFFF /\
  Z.of_nat (List.length (reads_of TIM2_SR (events s))) = 50001 /\
  Z.of_nat (List.length (reads_of TIM2_CNT (events s))) = 49999 /\
  Z.of_nat (List.length (events s)) = 100008.
Proof.
  intros Hflag Hcnt.
  destruct (arm_trace_eq s) as (r0 & c0 & o1 & o2 & Harm).
  destruct (call_trace s)
    as (k1 & Hk1 & Hq1 &
        [(_ & Hlast & s' & Hrun) | [(_ & Hlt & Hover & _) | (Hf & _)]]).
  - destruct (events_eq _ _ _ _ Hrun) as [-> ->].
    split; [reflexivity |].
    rewrite !reads_of_app, !length_app.
    destruct (wait_trace_reads k1 (after arm_and_trigger s)) as [-> ->].
    rewrite wait_trace_length, Harm. cbn [reads_of reg_eqb List.length]. lia.
  - specialize (Hcnt k1 Hlt). lia.
  - rewrite (Hflag k1 Hk1) in Hf. discriminate.
Qed.

(** X14: a call that sees the rising edge at poll [k1] of the first wait and
    the falling edge at poll [k2] of the second stops polling at once: its
    trace has exactly [2 * k1 + 2 * k2 + 21] events, [k1 + k2] of them reads
    of the counter. *)
Theorem successful_call_length (s : hw) a s2 t2 (k1 k2 : nat) :
  capture_rising (after arm_and_trigger s) = (Normal a, s2, t2) ->
  captured_at 60000 (after arm_and_trigger s) k1 ->
  captured_at 30000 s2 k2 ->
  Z.of_nat (List.length (events s)) = 2 * Z.of_nat k1 + 2 * Z.of_nat k2 + 21 /\
  List.length (reads_of TIM2_CNT (events s)) = (k1 + k2)%nat.
Proof.
  intros Hrise (Hk1 & Hq1 & Hf1) (Hk2 & Hq2 & Hf2).
  destruct (arm_trace_eq s) as (r0 & c0 & o1 & o2 & Harm).
  destruct (call_trace s)
    as (k1' & Hk1' & Hq1' &
        [(Hf & Hlast & _) | [(Hf & Hlt & Hover & _) |
         (Hf & a' & sr & c & s2' & k2' & Hrise' & Hk2' & Hq2' & Hcase)]]).
  - exfalso.
    destruct (Nat.lt_trichotomy k1 k1') as [Hl | [He | Hg]]; [| | lia].
    + destruct (Hq1' k1 Hl) as [Hc _]. rewrite Hc in Hf1. discriminate.
    + subst k1'. rewrite Hf in Hf1. discriminate.
  - exfalso.
    destruct (Nat.lt_trichotomy k1 k1') as [Hl | [He | Hg]].
    + destruct (Hq1' k1 Hl) as [Hc _]. rewrite Hc in Hf1. discriminate.
    + subst k1'. rewrite Hf in Hf1. discriminate.
    + destruct (Hq1 k1' Hg) as [_ Hc]. lia.
  - assert (k1' = k1) as -> by (apply (first_capture_unique 60000 (after arm_and_trigger s)); assumption).
    rewrite Hrise in Hrise'. injection Hrise' as <- <- _.
    destruct Hcase
      as [(Hf' & Hlast & _) | [(Hf' & Hlt & Hover & _) | (Hf' & b & sr2 & s' & Hrun)]].
    + exfalso.
      destruct (Nat.lt_trichotomy k2 k2') as [Hl | [He | Hg]]; [| | lia].
      * destruct (Hq2' k2 Hl) as [Hc _]. rewrite Hc in Hf2. discriminate.
      * subst k2'. rewrite Hf' in Hf2. discriminate.
    + exfalso.
      destruct (Nat.lt_trichotomy k2 k2') as [Hl | [He | Hg]].
      * destruct (Hq2' k2 Hl) as [Hc _]. rewrite Hc in Hf2. discriminate.
      * subst k2'. rewrite Hf' in Hf2. discriminate.
      * destruct (Hq2 k2' Hg) as [_ Hc]. lia.
    + assert (k2' = k2) as -> by (apply (first_capture_unique 30000 s2); assumption).
      destruct (events_eq _ _ _ _ Hrun) as [-> _].
      rewrite !reads_of_app, !length_app, !wait_trace_length.
      destruct (wait_trace_reads k1 (after arm_and_trigger s)) as [_ ->].
      destruct (wait_trace_reads k2 s2) as [_ ->].
      rewrite Harm.
      cbn [reads_of reg_eqb List.length rising_latch falling_latch report_lines].
      split; lia.
Qed.

End Counts.

Lemma dead_board_polls (j : nat) :
  sr_poll j (after arm_and_trigger dead_board) = 0 /\
  cnt_poll j (after arm_and_trigger dead_board) = 0.
Proof.
  assert (Hafter : after arm_and_trigger dead_board = dead_board)
    by (vm_compute; reflexivity).
  assert (Hstay : poll_state j dead_board = dead_board).
  { induction j as [| j IH]; [reflexivity |]. cbn [poll_state]. exact IH. }
  unfold sr_poll, cnt_poll. rewrite Hafter, Hstay. split; reflexivity.
Qed.

Lemma iteration_guard_expires_witness :
  returned dead_board = Some 0xFFFF /\
  Z.of_nat (List.length (reads_of TIM2_SR (events dead_board))) = 50001 /\
  Z.of_nat (List.length (reads_of TIM2_CNT (events dead_board))) = 49999 /\
  Z.of_nat (List.length (events dead_board)) = 100008.
Proof.
  apply (@iteration_guard_expires Scripted dead_board).
  - intros j Hj. destruct (dead_board_polls j) as [-> _]. reflexivity.
  - intros j Hj. destruct (dead_board_polls j) as [_ ->]. discriminate.
Defined.

Lemma successful_call_length_witness :
  Z.of_nat (List.length (events (echo_board 100 588))) =
    2 * Z.of_nat 1 + 2 * Z.of_nat 1 + 21 /\
  List.length (reads_of TIM2_CNT (events (echo_board 100 588))) = (1 + 1)%nat.
Proof.
  eapply (@successful_call_length Scripted (echo_board 100 588) 100 _ _ 1%nat 1%nat).
  - vm_compute. reflexivity.
  - split; [reflexivity |]. split; [| vm_compute; reflexivity].
    intros j Hj. assert (j = 0%nat) as -> by lia.
    vm_compute. split; [reflexivity | discriminate].
  - split; [reflexivity |]. split; [| vm_compute; reflexivity].
    intros j Hj. assert (j = 0%nat) as -> by lia.
    vm_compute. split; [reflexivity | discriminate].
Defined.

Lemma value_means_two_captures_witness :
  exists a b,
    captures (events (echo_board 100 588)) = [a; b] /\
    returned (echo_board 100 588) = Some (distance_cm (pulse_width a b)).
Proof.
  apply (@value_means_two_captures Scripted (echo_board 100 588)).
  vm_compute. discriminate.
Defined.

(** ** The reporting loop *)

Lemma status_lines_app (t1 t2 : list main_event) :
  status_lines (t1 ++ t2) = status_lines t1 ++ status_lines t2.
Proof.
  induction t1 as [| e t1 IH]; [reflexivity |].
  destruct e; cbn [app status_lines]; rewrite IH; reflexivity.
Qed.

Lemma status_lines_call (t : list event) : status_lines (map InCall t) = [].
Proof. induction t as [| e t IH]; [reflexivity | exact IH]. Qed.

Section Reporting.
Context {B : Board}.

Lemma main_cycle_eq (s : hw) :
  exists v s1,
    measure_distance_cm s = (Some v, s1, events s) /\
    main_cycle s =
      Some (Nat.iter (Z.to_nat 4200000) nop s1,
            map InCall (events s) ++
              [if is_error v
               then Printf0 "Distance Error or Timeout\r\n"
               else Printf1 "Distance: %lu cm\r\n" v]).
Proof.
  destruct (measure_cases s) as (v & s1 & t & Hrun & _).
  destruct (events_eq _ _ _ _ Hrun) as [Hev _].
  exists v, s1. rewrite Hev. split; [exact Hrun |].
  unfold main_cycle. rewrite Hrun.
  rewrite (delay_ms_spec 100 s1) by (split; [discriminate | reflexivity]).
  cbn [map]. rewrite app_nil_r. reflexivity.
Qed.

Lemma two_captures_seen (s : hw) (a b : Z) :
  captures (events s) = [a; b] ->
  exists s2 t2 k,
    capture_rising (after arm_and_trigger s) = (Normal a, s2, t2) /\
    captured_at 30000 s2 k.
Proof.
  intros Hc.
  destruct (measure_cases s)
    as (v & s' & t & Hrun & _ &
        [(_ & _ & Hc0 & _) | [(a0 & _ & _ & Hc0) |
         (a0 & b0 & s2 & t2 & k & Hr & Hcap & _ & _ & _ & Hc0)]]);
    destruct (events_eq _ _ _ _ Hrun) as [Hev _];
    rewrite Hev in Hc; rewrite Hc in Hc0; try discriminate.
  injection Hc0 as -> ->. exists s2, t2, k. split; assumption.
Qed.

Lemma timeout_is_silent (s : hw) :
  no_rising_edge s \/ (exists a, rising_only s a) ->
  returned s = Some 0xFFFF /\ prints (events s) = [].
Proof.
  intros Hto.
  destruct (call_console s) as [(Hret & Hpr & _) | (a & b & Hc & _)];
    [split; assumption |].
  exfalso.
  destruct (two_captures_seen s a b Hc) as (s2 & t2 & k & Hr & Hcap).
  destruct Hto as [Hnone | (a' & s2' & t2' & Hr' & Hnone)].
  - destruct (rising_seen _ _ _ _ Hr) as ((k' & Hcap') & _).
    exact (Hnone k' Hcap').
  - rewrite Hr in Hr'. injection Hr' as _ <- _. exact (Hnone k Hcap).
Qed.

(** X15: a turn of the loop whose measurement times out - no rising edge
    inside the bound, or a rising edge and no falling edge inside the bound -
    ends, and puts exactly one line on the console: the error line of
    [main]. *)
Theorem main_reports_timeout (s : hw) :
  no_rising_edge s \/ (exists a, rising_only s a) ->
  exists s',
    main_cycle s =
      Some (s', map InCall (events s) ++ [Printf0 "Distance Error or Timeout\r\n"]) /\
    prints (events s) = [].
Proof.
  intros Hto.
  destruct (timeout_is_silent s Hto) as [Hret Hpr].
  destruct (main_cycle_eq s) as (v & s1 & Hrun & Hcycle).
  destruct (events_eq _ _ _ _ Hrun) as [_ Hret'].
  rewrite Hret in Hret'. injection Hret' as <-.
  eexists. split; [exact Hcycle | exact Hpr].
Qed.

(** X16: a turn of the loop whose measurement latched two tick-range
    captures ends and puts three lines on the console: the pulse width, the
    distance, and the distance again as the status line of [main] - never
    the error line.  The distance is [pulse_width * 343 / 4000]. *)
Theorem main_reports_distance (s : hw) (a b : Z) :
  captures (events s) = [a; b] -> tick a -> tick b ->
  exists s',
    main_cycle s =
      Some (s', map InCall (events s) ++
                  [Printf1 "Distance: %lu cm\r\n" (pulse_width a b * 343 / 4000)]) /\
    prints (events s) =
      [("Pulse width: %lu us\r\n"%string, pulse_width a b);
       ("Distance: %lu cm\n"%string, pulse_width a b * 343 / 4000)].
Proof.
  intros Hc Ha Hb.
  destruct (main_cycle_eq s) as (v & s1 & Hrun & Hcycle).
  pose proof (two_captures_value s v s1 (events s) a b Hrun Hc) as Hv.
  pose proof (pulse_width_tick a b Ha Hb) as Hpw.
  pose proof (distance_cm_bound _ Hpw) as Hd.
  rewrite (distance_cm_exact _ Hpw) in Hv, Hd.
  assert (Herr : is_error v = false)
    by (unfold is_error; apply Z.eqb_neq; lia).
  rewrite Herr, Hv in Hcycle.
  eexists. split; [exact Hcycle |].
  destruct (call_console s) as [(_ & _ & Hlen) | (a' & b' & Hc' & _ & Hpr)].
  - rewrite Hc in Hlen. cbn in Hlen. lia.
  - rewrite Hc in Hc'. injection Hc' as <- <-.
    rewrite Hpr, (distance_cm_exact _ Hpw). reflexivity.
Qed.

Lemma main_loop_spec (n : nat) :
  forall s,
    exists s' t,
      main_loop n s = Some (s', t) /\
      List.length (status_lines t) = n /\
      Z.of_nat (List.length t) <= 200018 * Z.of_nat n.
Proof.
  induction n as [| n IH]; intros s.
  - exists s, []. repeat split. cbn. lia.
  - destruct (main_cycle_eq s) as (v & s1 & Hrun & Hcycle).
    destruct (IH (Nat.iter (Z.to_nat 4200000) nop s1)) as (s' & t & Hloop & Hst & Hlen).
    assert (Hbound : Z.of_nat (List.length (events s)) <= 200017).
    { destruct (call_shape s)
        as (v0 & s0 & t0 & p1 & Hrun0 & Hp1 & Hl1 &
            [(-> & ->) | (a & sr & c & p2 & Hp2 & Hl2 &
                          [(-> & ->) | (b & sr2 & -> & ->)])]);
        destruct (events_eq _ _ _ _ Hrun0) as [-> _];
        destruct (arm_and_trigger_reads s) as (_ & _ & Harm);
        rewrite !length_app, Harm;
        cbn [List.length rising_latch falling_latch report_lines]; lia. }
    cbn [main_loop]. rewrite Hcycle, Hloop.
    eexists _, _. split; [reflexivity |].
    rewrite !status_lines_app, status_lines_call, !length_app, length_map.
    split.
    + destruct (is_error v); cbn; rewrite Hst; reflexivity.
    + cbn [List.length]. lia.
Qed.

(** X17: the loop of [main] never gets stuck: for every board and every [n]
    its first [n] turns end, with exactly one status line per turn and at
    most 200018 events per turn. *)
Theorem main_loop_runs (n : nat) (s : hw) :
  exists s' t,
    main_loop n s = Some (s', t) /\
    List.length (status_lines t) = n /\
    Z.of_nat (List.length t) <= 200018 * Z.of_nat n.
Proof. exact (main_loop_spec n s). Qed.

End Reporting.

Lemma main_reports_timeout_witness :
  exists s',
    main_cycle silent_board =
      Some (s', map InCall (events silent_board) ++
                  [Printf0 "Distance Error or Timeout\r\n"]) /\
    prints (events silent_board) = [].
Proof.
  apply (@main_reports_timeout Scripted silent_board).
  left. intros [| k] (Hk & Hq & Hseen).
  - vm_compute in Hseen. discriminate.
  - destruct (Hq 0%nat) as [_ Hle]; [lia |].
    vm_compute in Hle. apply Hle. reflexivity.
Defined.

Lemma main_reports_distance_witness :
  exists s',
    main_cycle (echo_board 100 588) =
      Some (s', map InCall (events (echo_board 100 588)) ++
                  [Printf1 "Distance: %lu cm\r\n" (pulse_width 100 588 * 343 / 4000)]) /\
    prints (events (echo_board 100 588)) =
      [("Pulse width: %lu us\r\n"%string, pulse_width 100 588);
       ("Distance: %lu cm\n"%string, pulse_width 100 588 * 343 / 4000)].
Proof.
  apply (@main_reports_distance Scripted (echo_board 100 588) 100 588).
  - vm_compute. reflexivity.
  - split; discriminate.
  - split; discriminate.
Defined.

(** ** The set-up of the pins and the timer *)

Lemma order_cfg_write (r : creg) (v : Z) (st : setup) :
  order (cfg_write r v st) = order st ++ [r].
Proof. reflexivity. Qed.

Lemma order_cfg_set (r : creg) (mask : Z) (st : setup) :
  order (cfg_set r mask st) = order st ++ [r].
Proof. reflexivity. Qed.

Lemma order_cfg_clear (r : creg) (mask : Z) (st : setup) :
  order (cfg_clear r mask st) = order st ++ [r].
Proof. reflexivity. Qed.

(** What the set-up makes of each register it writes. *)
Lemma init_forms (st : setup) :
  regs (main_init st) RCC_AHB1ENR = Z.lor (regs st RCC_AHB1ENR) (Z.shiftl 1 0) /\
  regs (main_init st) RCC_APB1ENR = Z.lor (regs st RCC_APB1ENR) (Z.shiftl 1 0) /\
  regs (main_init st) GPIOA_MODER =
    Z.lor (Z.land (Z.lor (Z.land (regs st GPIOA_MODER) (not32 (Z.shiftl 3 0)))
                         (Z.shiftl 1 0))
                  (not32 (Z.shiftl 3 2)))
          (Z.shiftl 2 2) /\
  regs (main_init st) GPIOA_OTYPER =
    Z.land (regs st GPIOA_OTYPER) (not32 (Z.shiftl 1 0)) /\
  regs (main_init st) GPIOA_AFRL =
    Z.lor (Z.land (regs st GPIOA_AFRL) (not32 (Z.shiftl 15 4))) (Z.shiftl 1 4) /\
  regs (main_init st) TIM2_CR1 = Z.lor (regs st TIM2_CR1) (Z.shiftl 1 0) /\
  regs (main_init st) TIM2_CCMR1 =
    Z.lor (Z.land (regs st TIM2_CCMR1) (not32 (Z.shiftl 255 8))) (Z.shiftl 1 8) /\
  regs (main_init st) (Meas TIM2_CCER) =
    Z.lor (Z.land (regs st (Meas TIM2_CCER)) (not32 (Z.shiftl 1 5))) (Z.shiftl 1 4) /\
  regs (main_init st) TIM2_PSC = 83 /\
  regs (main_init st) TIM2_ARR = 0xFFFF.
Proof. repeat split. Qed.

(** The registers the set-up writes, in the order it writes them. *)
Lemma init_order (st : setup) :
  order (main_init st) =
    order st ++
      [RCC_AHB1ENR; GPIOA_MODER; GPIOA_MODER; GPIOA_OTYPER; GPIOA_MODER;
       GPIOA_MODER; GPIOA_AFRL; GPIOA_AFRL; RCC_APB1ENR; TIM2_PSC; TIM2_ARR;
       TIM2_CCMR1; TIM2_CCMR1; Meas TIM2_CCER; Meas TIM2_CCER; TIM2_CR1].
Proof.
  unfold main_init. cbv zeta.
  repeat first [ rewrite order_cfg_set | rewrite order_cfg_clear
               | rewrite order_cfg_write ].
  rewrite <- !app_assoc. reflexivity.
Qed.

(** X18: the pin set-up of [main], whatever the registers held before.  In
    GPIOA_MODER the field of PA0 becomes 01 (output) and the field of PA1
    becomes 10 (alternate function), the other 28 bits are kept; in
    GPIOA_OTYPER bit 0 becomes 0 (push-pull), the rest is kept; in
    GPIOA_AFRL the field of PA1 becomes 0001 (AF1), the rest is kept. *)
Theorem init_pins (st : setup) :
  (Z.testbit (regs (main_init st) GPIOA_MODER) 0 = true /\
   Z.testbit (regs (main_init st) GPIOA_MODER) 1 = false /\
   Z.testbit (regs (main_init st) GPIOA_MODER) 2 = false /\
   Z.testbit (regs (main_init st) GPIOA_MODER) 3 = true /\
   forall j, 4 <= j < 32 ->
     Z.testbit (regs (main_init st) GPIOA_MODER) j =
     Z.testbit (regs st GPIOA_MODER) j) /\
  (Z.testbit (regs (main_init st) GPIOA_OTYPER) 0 = false /\
   same_but 0 (regs st GPIOA_OTYPER) (regs (main_init st) GPIOA_OTYPER)) /\
  (Z.testbit (regs (main_init st) GPIOA_AFRL) 4 = true /\
   Z.testbit (regs (main_init st) GPIOA_AFRL) 5 = false /\
   Z.testbit (regs (main_init st) GPIOA_AFRL) 6 = false /\
   Z.testbit (regs (main_init st) GPIOA_AFRL) 7 = false /\
   forall j, 0 <= j < 32 -> ~ 4 <= j < 8 ->
     Z.testbit (regs (main_init st) GPIOA_AFRL) j =
     Z.testbit (regs st GPIOA_AFRL) j).
Proof.
  destruct (init_forms st) as (_ & _ & -> & -> & -> & _).
  generalize (regs st GPIOA_MODER) (regs st GPIOA_OTYPER) (regs st GPIOA_AFRL).
  intros m o f.
  split; [| split].
  - split; [mask_bit m |]. split; [mask_bit m |].
    split; [mask_bit m |]. split; [mask_bit m |].
    intros j Hj. assert (Hj' : 0 <= j < 32) by lia. revert Hj.
    mask_bits m j Hj'.
  - split; [mask_bit o |].
    intros j Hj Hne. revert Hne. mask_bits o j Hj.
  - split; [mask_bit f |]. split; [mask_bit f |].
    split; [mask_bit f |]. split; [mask_bit f |].
    intros j Hj Hne. revert Hne. mask_bits f j Hj.
Qed.

(** X19: the timer set-up of [main], whatever the registers held before.
    The prescaler is 83 and the auto-reload value 0xFFFF, the largest tick;
    in TIM2_CCMR1 the byte of channel 2 becomes 0x01 (input on TI2, no
    filter, no prescaler) and the rest is kept; in TIM2_CCER the capture is
    enabled (CC2E = 1) on the rising edge (CC2P = 0) and the rest is kept;
    in TIM2_CR1 the counter is enabled and the rest is kept. *)
Theorem init_timer (st : setup) :
  regs (main_init st) TIM2_PSC = 83 /\
  regs (main_init st) TIM2_ARR = TICK_MAX /\
  (Z.testbit (regs (main_init st) TIM2_CCMR1) 8 = true /\
   (forall j, 9 <= j < 16 ->
      Z.testbit (regs (main_init st) TIM2_CCMR1) j = false) /\
   forall j, 0 <= j < 32 -> ~ 8 <= j < 16 ->
     Z.testbit (regs (main_init st) TIM2_CCMR1) j =
     Z.testbit (regs st TIM2_CCMR1) j) /\
  (Z.testbit (regs (main_init st) (Meas TIM2_CCER)) 4 = true /\
   Z.testbit (regs (main_init st) (Meas TIM2_CCER)) 5 = false /\
   forall j, 0 <= j < 32 -> j <> 4 -> j <> 5 ->
     Z.testbit (regs (main_init st) (Meas TIM2_CCER)) j =
     Z.testbit (regs st (Meas TIM2_CCER)) j) /\
  (Z.testbit (regs (main_init st) TIM2_CR1) 0 = true /\
   same_but 0 (regs st TIM2_CR1) (regs (main_init st) TIM2_CR1)).
Proof.
  destruct (init_forms st) as (_ & _ & _ & _ & _ & -> & -> & -> & -> & ->).
  generalize (regs st TIM2_CCMR1) (regs st (Meas TIM2_CCER)) (regs st TIM2_CR1).
  intros m e c.
  split; [reflexivity |]. split; [reflexivity |].
  split; [| split].
  - split; [mask_bit m |]. split.
    + intros j Hj. assert (Hj' : 0 <= j < 32) by lia. revert Hj.
      mask_bits m j Hj'.
    + intros j Hj Hne. revert Hne. mask_bits m j Hj.
  - split; [mask_bit e |]. split; [mask_bit e |].
    intros j Hj H4 H5. revert H4 H5. mask_bits e j Hj.
  - split; [mask_bit c |].
    intros j Hj Hne. revert Hne. mask_bits c j Hj.
Qed.

(** X20: the clocks.  The set-up sets bit 0 of RCC_AHB1ENR (GPIOA) and bit 0
    of RCC_APB1ENR (TIM2) and keeps their other bits; it writes no GPIOA
    register before RCC_AHB1ENR and no TIM2 register before RCC_APB1ENR; the
    last register it writes is TIM2_CR1, which starts the counter; and of
    the registers [measure_distance_cm] uses it changes only TIM2_CCER. *)
Theorem init_clocks (st : setup) :
  (Z.testbit (regs (main_init st) RCC_AHB1ENR) 0 = true /\
   same_but 0 (regs st RCC_AHB1ENR) (regs (main_init st) RCC_AHB1ENR)) /\
  (Z.testbit (regs (main_init st) RCC_APB1ENR) 0 = true /\
   same_but 0 (regs st RCC_APB1ENR) (regs (main_init st) RCC_APB1ENR)) /\
  (exists l, order (main_init st) = order st ++ l /\
             clocked [] l = true /\ last l TIM2_PSC = TIM2_CR1) /\
  forall r, r <> TIM2_CCER -> regs (main_init st) (Meas r) = regs st (Meas r).
Proof.
  destruct (init_forms st) as (-> & -> & _).
  generalize (regs st RCC_AHB1ENR) (regs st RCC_APB1ENR). intros h p.
  split; [| split; [| split]].
  - split; [mask_bit h |].
    intros j Hj Hne. revert Hne. mask_bits h j Hj.
  - split; [mask_bit p |].
    intros j Hj Hne. revert Hne. mask_bits p j Hj.
  - eexists. split; [apply init_order |]. split; reflexivity.
  - intros [| | | |] Hr; first [ reflexivity | destruct Hr; reflexivity ].
Qed.

Lemma bit_above_32 (a j : Z) :
  0 <= a < 2 ^ 32 -> 32 <= j -> Z.testbit a j = false.
Proof.
  intros Ha Hj.
  rewrite <- (Z.mod_small a (2 ^ 32)) by exact Ha.
  apply Z.mod_pow2_bits_high. lia.
Qed.

Lemma not32_above_32 (m j : Z) : 32 <= j -> Z.testbit (not32 m) j = false.
Proof.
  intros Hj. unfold not32, wrap32. apply Z.mod_pow2_bits_high. lia.
Qed.

(** Equality of two 32-bit mask expressions over [m], bit by bit: the 32
    positions one at a time, the positions above by the masks being 32 bits
    wide. *)
Ltac same_bits m :=
  let j := fresh "j" in
  let Hj := fresh "Hj" in
  let Hlo := fresh "Hlo" in
  let Hhi := fresh "Hhi" in
  apply Z.bits_inj'; intros j Hj;
  destruct (Z.lt_ge_cases j 32) as [Hlo | Hhi];
  [ assert (Hj' : 0 <= j < 32) by lia; clear Hj Hlo;
    bit_cases j Hj'; mask_bit m
  | push_testbit;
    repeat match goal with
           | |- context [Z.testbit (not32 ?x) j] =>
               rewrite (not32_above_32 x j Hhi)
           | |- context [Z.testbit (Z.shiftl ?a ?b) j] =>
               rewrite (bit_above_32 (Z.shiftl a b) j)
                 by (first [ exact Hhi
                           | split; [apply Z.leb_le | apply Z.ltb_lt];
                             vm_compute; reflexivity ])
           end;
    destruct (Z.testbit m j); reflexivity ].

(** X21: the set-up is idempotent on the registers: running it a second time
    leaves every register as the first run left it. *)
Theorem init_idempotent (st : setup) (r : creg) :
  regs (main_init (main_init st)) r = regs (main_init st) r.
Proof.
  destruct (init_forms (main_init st))
    as (H1 & H2 & H3 & H4 & H5 & H6 & H7 & H8 & H9 & H10).
  destruct (init_forms st) as (G1 & G2 & G3 & G4 & G5 & G6 & G7 & G8 & G9 & G10).
  destruct r as [| | | | | | | | | [| | | |]].
  - rewrite H1, G1. same_bits (regs st RCC_AHB1ENR).
  - rewrite H2, G2. same_bits (regs st RCC_APB1ENR).
  - rewrite H3, G3. same_bits (regs st GPIOA_MODER).
  - rewrite H4, G4. same_bits (regs st GPIOA_OTYPER).
  - rewrite H5, G5. same_bits (regs st GPIOA_AFRL).
  - rewrite H6, G6. same_bits (regs st TIM2_CR1).
  - rewrite H7, G7. same_bits (regs st TIM2_CCMR1).
  - rewrite H9, G9. reflexivity.
  - rewrite H10, G10. reflexivity.
  - reflexivity.
  - reflexivity.
  - rewrite H8, G8. same_bits (regs st (Meas TIM2_CCER)).
  - reflexivity.
  - reflexivity.
Qed.
